(** * ISM report parser: the text segmentation and classification core

    A shallow embedding of [export_ism_report_to_excel.py] and the
    properties of its sentence classifier, paragraph processor, rank
    assignment and report segmenter.

    Text is a [string]: a sequence of characters with codes below 256;
    every delimiter the script looks for is ASCII.  Python integers are
    unbounded, hence [Z].  An [OrderedDict] is an association list in
    insertion order whose keys are pairwise distinct.  Code that can raise
    (list indexing) lives in a small error monad.  Reading the PDF and
    writing the workbook are outside the model: the segmenter starts from
    the extracted text and ends with the dictionary given to the
    exporter. *)

From Stdlib Require Import String Ascii List ZArith Bool Lia Permutation.
Import ListNotations.

Open Scope string_scope.
Open Scope Z_scope.

(* ================================================================= *)
(** ** Python built-ins used by the script *)

Module Py.

(** *** Exceptions *)

Inductive exn : Type :=
| IndexError.

Inductive result (A : Type) : Type :=
| Ok (a : A)
| Raise (e : exn).

Arguments Ok {A} a.
Arguments Raise {A} e.

Definition bind {A B : Type} (m : result A) (k : A -> result B) : result B :=
  match m with
  | Ok a => k a
  | Raise e => Raise e
  end.

Notation "x <- m ;; k" := (bind m (fun x => k))
  (at level 61, m at next level, right associativity).

(** *** [str] *)

(** [s.startswith(p)] *)
Fixpoint startswith (p s : string) : bool :=
  match p with
  | EmptyString => true
  | String a p' =>
      match s with
      | EmptyString => false
      | String b s' => Ascii.eqb a b && startswith p' s'
      end
  end.

(** [sub in s] *)
Fixpoint contains (sub s : string) : bool :=
  startswith sub s ||
  match s with
  | EmptyString => false
  | String _ s' => contains sub s'
  end.

(** Prepend a character to the first piece of a split. *)
Definition cons_head (c : ascii) (pieces : list string) : list string :=
  match pieces with
  | [] => [String c EmptyString]
  | h :: t => String c h :: t
  end.

(** [s.split(sep)] for a non-empty [sep] (Python raises [ValueError] on
    an empty one; the script only passes non-empty constants).  The scan
    goes left to right; [skip] counts the characters of a separator that
    was just matched and still have to be passed over, which makes the
    matches non-overlapping. *)
Fixpoint split_go (sep s : string) (skip : nat) : list string :=
  match s with
  | EmptyString => [EmptyString]
  | String c s' =>
      match skip with
      | S k => split_go sep s' k
      | O =>
          if startswith sep s
          then EmptyString :: split_go sep s' (Nat.pred (String.length sep))
          else cons_head c (split_go sep s' O)
      end
  end.

Definition split (sep s : string) : list string := split_go sep s O.

(** [s.replace(old, new)] for a non-empty [old]: every non-overlapping
    occurrence, left to right. *)
Fixpoint replace_go (old new s : string) (skip : nat) : string :=
  match s with
  | EmptyString => EmptyString
  | String c s' =>
      match skip with
      | S k => replace_go old new s' k
      | O =>
          if startswith old s
          then new ++ replace_go old new s' (Nat.pred (String.length old))
          else String c (replace_go old new s' O)
      end
  end.

Definition replace (old new s : string) : string := replace_go old new s O.

(** [c.isspace()] on the characters with a code below 256:
    TAB LF VT FF CR, FS GS RS US, SPACE, NEL and NBSP. *)
Definition isspace (c : ascii) : bool :=
  let n := nat_of_ascii c in
  ((9 <=? n) && (n <=? 13) || (28 <=? n) && (n <=? 32)
   || (n =? 133) || (n =? 160))%nat.

Fixpoint lstrip (s : string) : string :=
  match s with
  | EmptyString => EmptyString
  | String c s' => if isspace c then lstrip s' else s
  end.

Fixpoint rstrip (s : string) : string :=
  match s with
  | EmptyString => EmptyString
  | String c s' =>
      match rstrip s' with
      | EmptyString => if isspace c then EmptyString else String c EmptyString
      | r => String c r
      end
  end.

(** [s.strip()] *)
Definition strip (s : string) : string := rstrip (lstrip s).

(** *** [list] *)

(** [x in l] on a list of strings. *)
Definition list_in (x : string) (l : list string) : bool :=
  existsb (String.eqb x) l.

(** [l[i]], with Python's negative indices. *)
Definition getitem {A : Type} (l : list A) (i : Z) : result A :=
  let n := Z.of_nat (List.length l) in
  let j := if i <? 0 then i + n else i in
  if (j <? 0) || (n <=? j) then Raise IndexError
  else match nth_error l (Z.to_nat j) with
       | Some x => Ok x
       | None => Raise IndexError
       end.

(** [range(a, b)] *)
Definition range (a b : nat) : list nat := seq a (b - a).

(** *** [collections.OrderedDict] with [str] keys *)

Definition OrderedDict (V : Type) : Type := list (string * V).

(** [d[k] = v]: an existing key keeps its position, a new one goes last. *)
Fixpoint od_set {V : Type} (k : string) (v : V) (d : OrderedDict V)
  : OrderedDict V :=
  match d with
  | [] => [(k, v)]
  | (k', v') :: d' =>
      if String.eqb k' k then (k', v) :: d' else (k', v') :: od_set k v d'
  end.

(** [d.get(k)] *)
Fixpoint od_get {V : Type} (d : OrderedDict V) (k : string) : option V :=
  match d with
  | [] => None
  | (k', v') :: d' => if String.eqb k' k then Some v' else od_get d' k
  end.

(** [list(d.keys())] *)
Definition od_keys {V : Type} (d : OrderedDict V) : list string :=
  map fst d.

End Py.

Import Py.

(* ================================================================= *)
(** ** The script *)

Definition LIST_OF_INDUSTRIES : list string :=
  ["Textile Mills";
   "Primary Metals";
   "Transportation Equipment";
   "Apparel, Leather & Allied Products";
   "Petroleum & Coal Products";
   "Printing & Related Support Activities";
   "Machinery";
   "Computer & Electronic Products";
   "Miscellaneous Manufacturing";
   "Electrical Equipment, Appliances & Components";
   "Plastics & Rubber Products";
   "Paper Products";
   "Furniture & Related Products";
   "Chemical Products";
   "Food, Beverage & Tobacco Products";
   "Fabricated Metal Products";
   "Nonmetallic Mineral Products";
   "Wood Products"].

(** The line feed character. *)
Definition LF : string := String (ascii_of_nat 10) EmptyString.

Definition LIST_OF_INDICATORS : list string :=
  ["NEW ORDERS";
   "PRODUCTION";
   "EMPLOYMENT";
   "SUPPLIER DELIVERIES";
   "INVENTORIES" ++ LF;
   "CUSTOMERS' INVENTORIES";
   "PRICES";
   "BACKLOG OF ORDERS";
   "NEW EXPORT ORDERS";
   "IMPORTS";
   "BUYING POLICY"].

(** [list_industries.append(industry)] inside the scanning loop. *)
Definition scan_step (sentence : string) (list_industries : list string)
  (industry : string) : list string :=
  if contains industry sentence
  then (list_industries ++ [industry])%list
  else list_industries.

Definition get_list_of_industries_from_sentence (sentence : string)
  : result (list string) :=
  let list_industries : list string := [] in
  if contains ":" sentence then
    industries <- getitem (split ":" sentence) 1 ;;
    if contains ";" industries then
      Ok (map (fun industry =>
                 strip (replace LF " " (replace " and " EmptyString industry)))
              (split ";" industries))
    else
      Ok (list_industries ++ [strip (replace LF " " industries)])%list
  else
    Ok (fold_left (scan_step sentence) LIST_OF_INDUSTRIES list_industries).

(** One pass of either ranking loop: [d[industry] = index; index -= 1]. *)
Definition rank_step (st : OrderedDict Z * Z) (industry : string)
  : OrderedDict Z * Z :=
  let '(industries_dict, index) := st in
  (od_set industry index industries_dict, index - 1).

(** One pass of the loop in between: [d[neutral_industry] = 0]. *)
Definition neutral_step (industries_dict : OrderedDict Z)
  (neutral_industry : string) : OrderedDict Z :=
  od_set neutral_industry 0 industries_dict.

Definition create_dict_of_industries
  (list_growth list_neutral list_decrease : list string) : OrderedDict Z :=
  let industries_dict := [] in
  let growth_index := Z.of_nat (List.length list_growth) in
  let '(industries_dict, _) :=
    fold_left rank_step list_growth (industries_dict, growth_index) in
  let industries_dict :=
    fold_left neutral_step list_neutral industries_dict in
  let decrease_index := -1 in
  let '(industries_dict, _) :=
    fold_left rank_step list_decrease (industries_dict, decrease_index) in
  industries_dict.

(** The list comprehension computing the neutral industries. *)
Definition neutral_industries (list_industries_growth
  list_industries_decrease : list string) : list string :=
  filter (fun industry =>
            negb (list_in industry list_industries_growth)
            && negb (list_in industry list_industries_decrease))
         LIST_OF_INDUSTRIES.

Definition process_paragraph (para_text : string) : result (OrderedDict Z) :=
  let sentences := split "." para_text in
  growth_sentence <- getitem sentences 0 ;;
  decrease_sentence <- getitem sentences 1 ;;
  list_industries_growth <-
    get_list_of_industries_from_sentence growth_sentence ;;
  list_industries_decrease <-
    get_list_of_industries_from_sentence decrease_sentence ;;
  let list_industries_neutral :=
    neutral_industries list_industries_growth list_industries_decrease in
  Ok (create_dict_of_industries list_industries_growth
        list_industries_neutral list_industries_decrease).

(** The body of the segmentation loop of the main program, for one [i].
    The state is [(previous_text, industries_dict)]. *)
Definition segment_step
  (st : list string * OrderedDict (OrderedDict Z)) (i : nat)
  : result (list string * OrderedDict (OrderedDict Z)) :=
  let '(previous_text, industries_dict) := st in
  remaining <- getitem previous_text 1 ;;
  label <- getitem LIST_OF_INDICATORS (Z.of_nat i) ;;
  let splitted_text := split label remaining in
  verbose <- getitem splitted_text 0 ;;
  paragraph <-
    (if Nat.eqb i (List.length LIST_OF_INDICATORS - 1)
     then getitem (split ("." ++ LF) verbose) (-3)
     else getitem (split ("." ++ LF) verbose) (-2)) ;;
  let previous_text := splitted_text in
  processed_paragraph <- process_paragraph paragraph ;;
  key <- getitem LIST_OF_INDICATORS (Z.of_nat i - 1) ;;
  Ok (previous_text, od_set key processed_paragraph industries_dict).

Fixpoint segment_loop (indices : list nat)
  (st : list string * OrderedDict (OrderedDict Z))
  : result (list string * OrderedDict (OrderedDict Z)) :=
  match indices with
  | [] => Ok st
  | i :: rest => st' <- segment_step st i ;; segment_loop rest st'
  end.

(** The main program from the extracted [text] to the [industries_dict]
    handed to the exporter. *)
Definition segment_report (text : string)
  : result (OrderedDict (OrderedDict Z)) :=
  let industries_dict := [] in
  label0 <- getitem LIST_OF_INDICATORS 0 ;;
  let previous_text := split label0 text in
  st <- segment_loop (range 1 (List.length LIST_OF_INDICATORS))
          (previous_text, industries_dict) ;;
  Ok (snd st).

(** [output_filename = filename.replace("pdf", "xlsx")] *)
Definition output_filename (filename : string) : string :=
  replace "pdf" "xlsx" filename.

(* ================================================================= *)
(** ** Definitions that follow the specification *)

(** The normalisation of one name segment, in the words of the
    specification: remove every " and ", turn each line feed into a
    space, strip the white space at both ends. *)
Definition spec_normalize (segment : string) : string :=
  strip (replace LF " " (replace " and " EmptyString segment)).

(** [s[n:]] *)
Fixpoint drop (n : nat) (s : string) : string :=
  match n, s with
  | O, _ => s
  | S _, EmptyString => EmptyString
  | S n', String _ s' => drop n' s'
  end.

(** The text that follows the first occurrence of [sub] in [s]. *)
Fixpoint after_first (sub s : string) : option string :=
  if startswith sub s then Some (drop (String.length sub) s)
  else match s with
       | EmptyString => None
       | String _ s' => after_first sub s'
       end.

(** "The document contains all the labels, in this order": each label
    occurs after the first occurrence of the one before it. *)
Fixpoint labels_in_order (labels : list string) (text : string) : bool :=
  match labels with
  | [] => true
  | label :: labels' =>
      match after_first label text with
      | Some rest => labels_in_order labels' rest
      | None => false
      end
  end.

(** The keys of a dictionary after [d[k] = v]. *)
Fixpoint keys_set (k : string) (ks : list string) : list string :=
  match ks with
  | [] => [k]
  | k' :: ks' => if String.eqb k' k then ks else k' :: keys_set k ks'
  end.

(** The keys of [industries_dict] after the pass of the segmentation loop
    for [i], when that pass does not raise. *)
Definition keys_step (ks : list string) (i : nat) : list string :=
  match getitem LIST_OF_INDICATORS (Z.of_nat i - 1) with
  | Ok key => keys_set key ks
  | Raise _ => ks
  end.

(** *** A small report

    Every section has an introduction, the paragraph that names the
    industries and a closing line; the last section has one more line. *)

Definition example_paragraph : string :=
  "growth: Machinery; and Wood Products. decrease: Paper Products".

Definition example_section : string :=
  " index." ++ LF ++ example_paragraph ++ "." ++ LF ++ "next" ++ LF.

Definition example_last_section : string :=
  " index." ++ LF ++ example_paragraph ++ "." ++ LF
  ++ "closing remark." ++ LF ++ "next" ++ LF.

Definition example_document : string :=
  "ISM REPORT" ++ LF
  ++ "NEW ORDERS" ++ example_section
  ++ "PRODUCTION" ++ example_section
  ++ "EMPLOYMENT" ++ example_section
  ++ "SUPPLIER DELIVERIES" ++ example_section
  ++ "INVENTORIES" ++ LF ++ example_section
  ++ "CUSTOMERS' INVENTORIES" ++ example_section
  ++ "PRICES" ++ example_section
  ++ "BACKLOG OF ORDERS" ++ example_section
  ++ "NEW EXPORT ORDERS" ++ example_section
  ++ "IMPORTS" ++ example_last_section
  ++ "BUYING POLICY" ++ " lead times".

(** The eleven labels one after the other, with nothing in between. *)
Definition labels_only_document : string :=
  String.concat EmptyString LIST_OF_INDICATORS.

(* ================================================================= *)
(** ** The exporter and the main program

    The workbook library is outside the model: a workbook is the file
    name it was created with and, per worksheet added, the name of the
    sheet and the cells written to it, in the order of the calls. *)

Inductive cell : Type :=
| CellStr (s : string)
| CellInt (z : Z).

(** One [worksheet.write(row, col, value)]. *)
Definition cell_write : Type := (Z * Z * cell)%type.

Definition worksheet : Type := (string * list cell_write)%type.

Record workbook : Type := Workbook {
  wb_filename : string;
  wb_sheets : list worksheet
}.

(** The [if]/[elif]/[else] that chooses the state label. *)
Definition state_of_index (index : Z) : string :=
  if 0 <? index then "Growth"
  else if index =? 0 then "Neutral"
  else "Contraction".

(** One pass of the inner loop: three cells, then [row += 1]. *)
Definition write_row (col : Z) (st : list cell_write * Z)
  (item : string * Z) : list cell_write * Z :=
  let '(writes, row) := st in
  let '(industry, index) := item in
  let state := state_of_index index in
  ((writes ++ [(row, col, CellStr industry);
               (row, col + 1, CellStr state);
               (row, col + 2, CellInt index)])%list,
   row + 1).

(** The cells written to the worksheet of one indicator. *)
Definition export_sheet (value : OrderedDict Z) : list cell_write :=
  let row := 0 in
  let col := 0 in
  fst (fold_left (write_row col) value ([], row)).

(** One pass of the outer loop: [workbook.add_worksheet(indicator)] and
    the rows of that sheet. *)
Definition add_sheet (sheets : list worksheet)
  (item : string * OrderedDict Z) : list worksheet :=
  let '(indicator, value) := item in
  (sheets ++ [(indicator, export_sheet value)])%list.

Definition export_dict_to_excel (industries_dict : OrderedDict (OrderedDict Z))
  (path : string) : workbook :=
  Workbook path (fold_left add_sheet industries_dict []).

(** What a run of the main program ends with. *)
Inductive outcome : Type :=
| FileMissing          (* Exception("The provided file name does not exist") *)
| Uncaught (e : exn)
| Generated (wb : workbook).

(** The main program; [file_exists] stands for [os.path.exists] and
    [extract_text] for the concatenated text of the pages of the PDF. *)
Definition main (file_exists : string -> bool)
  (extract_text : string -> string) (filename : string) : outcome :=
  if negb (file_exists filename) then FileMissing
  else
    let text := extract_text filename in
    match segment_report text with
    | Raise e => Uncaught e
    | Ok industries_dict =>
        Generated (export_dict_to_excel industries_dict
                     (output_filename filename))
    end.

(* ================================================================= *)
(** ** Auxiliary notions for the statements *)

(** The number of characters of a text that are not white space. *)
Fixpoint nonblank (s : string) : nat :=
  match s with
  | EmptyString => 0
  | String c s' => (if isspace c then 0 else 1) + nonblank s'
  end.

(** The string is empty or starts with a character that is not white
    space. *)
Definition clean_head (s : string) : Prop :=
  match s with
  | EmptyString => True
  | String c _ => isspace c = false
  end.

(** The labels the segmentation loop splits on in the passes [indices]. *)
Definition labels_at (indices : list nat) : list string :=
  map (fun i => nth i LIST_OF_INDICATORS EmptyString) indices.

(** The three cells of row [row] for one entry of an indicator report. *)
Definition row_cells (row : Z) (item : string * Z) : list cell_write :=
  [(row, 0, CellStr (fst item));
   (row, 1, CellStr (state_of_index (snd item)));
   (row, 2, CellInt (snd item))].

(** The rows of a sheet, numbered from [row] on. *)
Fixpoint rows_from (row : Z) (value : OrderedDict Z) : list cell_write :=
  match value with
  | [] => []
  | item :: value' => (row_cells row item ++ rows_from (row + 1) value')%list
  end.

(* ================================================================= *)
(** ** The embedding on concrete inputs *)

(** Matches do not overlap and a trailing separator leaves an empty
    piece, as in Python. *)
Example split_pieces :
  split "ab" "xabyabab" = ["x"; "y"; EmptyString; EmptyString]
  /\ split "aa" "aaa" = [EmptyString; "a"]
  /\ split "." "a.b." = ["a"; "b"; EmptyString]
  /\ split "." EmptyString = [EmptyString].
Proof. repeat split; reflexivity. Qed.

Example replace_occurrences :
  replace "aa" "b" "aaaxaa" = "baxb"
  /\ replace " and " EmptyString " and Machinery" = "Machinery".
Proof. split; reflexivity. Qed.

Example strip_both_ends :
  strip (" " ++ LF ++ "Paper  Products " ++ LF) = "Paper  Products".
Proof. reflexivity. Qed.

Example getitem_negative :
  getitem ["a"; "b"; "c"] (-2) = Ok "b"
  /\ getitem ["a"; "b"; "c"] (-3) = Ok "a"
  /\ getitem ["a"; "b"; "c"] (-4) = Raise IndexError
  /\ getitem ["a"; "b"; "c"] 3 = Raise IndexError.
Proof. repeat split; reflexivity. Qed.

(** The end-to-end scenario of the specification. *)
Example end_to_end :
  process_paragraph
    "reported growth: Textile Mills; Primary Metals. reported decrease: Machinery."
  = Ok [("Textile Mills", 2); ("Primary Metals", 1);
        ("Transportation Equipment", 0);
        ("Apparel, Leather & Allied Products", 0);
        ("Petroleum & Coal Products", 0);
        ("Printing & Related Support Activities", 0);
        ("Computer & Electronic Products", 0);
        ("Miscellaneous Manufacturing", 0);
        ("Electrical Equipment, Appliances & Components", 0);
        ("Plastics & Rubber Products", 0);
        ("Paper Products", 0);
        ("Furniture & Related Products", 0);
        ("Chemical Products", 0);
        ("Food, Beverage & Tobacco Products", 0);
        ("Fabricated Metal Products", 0);
        ("Nonmetallic Mineral Products", 0);
        ("Wood Products", 0);
        ("Machinery", -1)].
Proof. vm_compute. reflexivity. Qed.

(** The small report: ten sheets, each with the ranks of its paragraph. *)
Example example_document_report :
  removelast LIST_OF_INDICATORS
  = ["NEW ORDERS"; "PRODUCTION"; "EMPLOYMENT"; "SUPPLIER DELIVERIES";
     "INVENTORIES" ++ LF; "CUSTOMERS' INVENTORIES"; "PRICES";
     "BACKLOG OF ORDERS"; "NEW EXPORT ORDERS"; "IMPORTS"]
  /\ exists d,
       process_paragraph example_paragraph = Ok d
       /\ segment_report example_document
          = Ok (map (fun label => (label, d)) (removelast LIST_OF_INDICATORS)).
Proof.
  split; [reflexivity|]. eexists. split; vm_compute; reflexivity.
Qed.

(* ================================================================= *)
(** ** Facts about the string primitives *)

Lemma startswith_spec (p s : string) :
  startswith p s = true <-> exists t, s = p ++ t.
Proof.
  revert s; induction p as [|a p IH]; intros s; simpl.
  - split; [intros _; now exists s | reflexivity].
  - destruct s as [|b s].
    + split; [discriminate | intros [t Ht]; discriminate].
    + rewrite andb_true_iff, Ascii.eqb_eq, IH. split.
      * intros [-> [t ->]]. now exists t.
      * intros [t Ht]. injection Ht as -> ->. split; [reflexivity | now exists t].
Qed.

Lemma startswith_app (p t : string) : startswith p (p ++ t) = true.
Proof. apply startswith_spec. now exists t. Qed.

Lemma append_assoc (a b c : string) : (a ++ b) ++ c = a ++ (b ++ c).
Proof. induction a as [|x a IH]; simpl; [reflexivity | now rewrite IH]. Qed.

(** [contains] decides the substring relation. *)
Lemma contains_spec (sub s : string) :
  contains sub s = true <-> exists a b, s = a ++ sub ++ b.
Proof.
  induction s as [|c s IH]; simpl.
  - rewrite orb_false_r, startswith_spec. split.
    + intros [t Ht]. now exists EmptyString, t.
    + intros [a [b H]]. destruct a as [|x a]; [now exists b | discriminate].
  - rewrite orb_true_iff, startswith_spec, IH. split.
    + intros [[t Ht] | [a [b Hab]]].
      * now exists EmptyString, t.
      * exists (String c a), b. simpl. now rewrite Hab.
    + intros [a [b H]]. destruct a as [|x a].
      * left. now exists b.
      * right. simpl in H. injection H as _ H. now exists a, b.
Qed.

Lemma contains_cons_false (sub : string) (c : ascii) (s : string) :
  contains sub (String c s) = false ->
  startswith sub (String c s) = false /\ contains sub s = false.
Proof. simpl. intros H. now apply orb_false_iff in H. Qed.

Lemma split_go_length (sep s : string) (skip : nat) :
  (1 <= List.length (split_go sep s skip))%nat.
Proof.
  revert skip; induction s as [|c s IH]; intros skip; simpl.
  - lia.
  - destruct skip as [|k]; [|apply IH].
    destruct (startswith sep (String c s)); simpl; [lia|].
    specialize (IH O). destruct (split_go sep s 0); simpl in *; lia.
Qed.

(** A string without the separator is returned whole. *)
Lemma split_absent (sep s : string) :
  contains sep s = false -> split sep s = [s].
Proof.
  unfold split. induction s as [|c s IH]; intros H.
  - reflexivity.
  - apply contains_cons_false in H as [H1 H2].
    cbn [split_go]. rewrite H1, (IH H2). reflexivity.
Qed.

(** A string with the (non-empty) separator gives at least two pieces. *)
Lemma split_present (sep s : string) :
  sep <> EmptyString -> contains sep s = true ->
  (2 <= List.length (split sep s))%nat.
Proof.
  intros Hsep. unfold split. induction s as [|c s IH]; intros H.
  - simpl in H. destruct sep; [congruence | discriminate].
  - cbn [split_go]. simpl in H.
    destruct (startswith sep (String c s)) eqn:E.
    + pose proof (split_go_length sep s (Nat.pred (String.length sep))).
      simpl. lia.
    + simpl in H. specialize (IH H).
      destruct (split_go sep s 0); simpl in *; lia.
Qed.

(** Splitting on one character at its first occurrence. *)
Lemma split_first_char (c : ascii) (pre post : string) :
  contains (String c EmptyString) pre = false ->
  split (String c EmptyString) (pre ++ String c post)
  = pre :: split (String c EmptyString) post.
Proof.
  unfold split. induction pre as [|x pre IH]; intros H.
  - simpl. now rewrite Ascii.eqb_refl.
  - apply contains_cons_false in H as [H1 H2].
    simpl in H1. rewrite andb_true_r in H1.
    simpl. rewrite H1. simpl. cbn [split_go] in IH.
    rewrite (IH H2). reflexivity.
Qed.

Lemma contains_first_char (c : ascii) (pre post : string) :
  contains (String c EmptyString) (pre ++ String c post) = true.
Proof. apply contains_spec. now exists pre, post. Qed.

(** Replacing a substring that does not occur changes nothing. *)
Lemma replace_absent (old new s : string) :
  contains old s = false -> replace old new s = s.
Proof.
  unfold replace. induction s as [|c s IH]; intros H.
  - reflexivity.
  - apply contains_cons_false in H as [H1 H2].
    cbn [replace_go]. rewrite H1, (IH H2). reflexivity.
Qed.


(* ================================================================= *)
(** ** Facts about indexing and ordered dictionaries *)

Lemma getitem_0 {A : Type} (x : A) (l : list A) : getitem (x :: l) 0 = Ok x.
Proof.
  unfold getitem. cbn [List.length]. rewrite Nat2Z.inj_succ.
  replace (0 <? 0) with false by reflexivity. cbn [orb].
  destruct (Z.leb_spec (Z.succ (Z.of_nat (List.length l))) 0); [lia|reflexivity].
Qed.

Lemma getitem_1 {A : Type} (x y : A) (l : list A) :
  getitem (x :: y :: l) 1 = Ok y.
Proof.
  unfold getitem. cbn [List.length]. rewrite !Nat2Z.inj_succ.
  replace (1 <? 0) with false by reflexivity. cbn [orb].
  destruct (Z.leb_spec (Z.succ (Z.succ (Z.of_nat (List.length l)))) 1);
    [lia|reflexivity].
Qed.

Lemma getitem_1_short {A : Type} (l : list A) :
  (List.length l < 2)%nat -> getitem l 1 = Raise IndexError.
Proof.
  intros H. unfold getitem. replace (1 <? 0) with false by reflexivity.
  cbn [orb]. destruct (Z.leb_spec (Z.of_nat (List.length l)) 1);
    [reflexivity|lia].
Qed.

Section OrderedDictFacts.

Context {V : Type}.
Implicit Types (d : OrderedDict V) (k : string) (v : V).

Lemma od_keys_set k v d k' :
  In k' (od_keys (od_set k v d)) <-> k' = k \/ In k' (od_keys d).
Proof.
  unfold od_keys. induction d as [|[k0 v0] d IH]; simpl.
  - intuition congruence.
  - destruct (String.eqb_spec k0 k) as [->|Hne]; simpl.
    + intuition congruence.
    + rewrite IH. intuition congruence.
Qed.

Lemma od_set_NoDup k v d :
  NoDup (od_keys d) -> NoDup (od_keys (od_set k v d)).
Proof.
  unfold od_keys. induction d as [|[k0 v0] d IH]; simpl; intros H.
  - constructor; [intros []|constructor].
  - destruct (String.eqb_spec k0 k) as [->|Hne]; simpl; [exact H|].
    inversion H as [|? ? Hnin Hnd]; subst. constructor; [|now apply IH].
    intros Hin. apply (od_keys_set k v d k0) in Hin. intuition congruence.
Qed.

Lemma od_get_set k v d k' :
  od_get (od_set k v d) k' = if String.eqb k k' then Some v else od_get d k'.
Proof.
  induction d as [|[k0 v0] d IH]; simpl.
  - reflexivity.
  - destruct (String.eqb_spec k0 k) as [->|Hne]; simpl.
    + destruct (String.eqb k k'); reflexivity.
    + rewrite IH. destruct (String.eqb_spec k0 k') as [->|Hne'];
        [|reflexivity].
      destruct (String.eqb_spec k k'); [congruence|reflexivity].
Qed.

Lemma od_set_fresh k v d :
  ~ In k (od_keys d) -> od_set k v d = (d ++ [(k, v)])%list.
Proof.
  unfold od_keys. induction d as [|[k0 v0] d IH]; simpl; intros H.
  - reflexivity.
  - destruct (String.eqb_spec k0 k) as [->|Hne]; [tauto|].
    rewrite IH; tauto.
Qed.

Lemma od_get_keys d k :
  In k (od_keys d) <-> exists v, od_get d k = Some v.
Proof.
  unfold od_keys. induction d as [|[k0 v0] d IH]; simpl.
  - split; [tauto | intros [v H]; discriminate].
  - destruct (String.eqb_spec k0 k) as [->|Hne].
    + split; [now exists v0 | now left].
    + rewrite <- IH. intuition congruence.
Qed.


End OrderedDictFacts.

(* ================================================================= *)
(** ** The ranking loops *)

Lemma create_dict_unfold (g n dl : list string) :
  create_dict_of_industries g n dl
  = fst (fold_left rank_step dl
           (fold_left neutral_step n
              (fst (fold_left rank_step g
                      (([] : OrderedDict Z), Z.of_nat (List.length g)))),
            -1)).
Proof.
  unfold create_dict_of_industries.
  destruct (fold_left rank_step g _) as [d1 i1]. cbn [fst].
  destruct (fold_left rank_step dl _) as [d3 i3]. reflexivity.
Qed.

Lemma rank_loop_keys (l : list string) (d : OrderedDict Z) (idx : Z) k :
  In k (od_keys (fst (fold_left rank_step l (d, idx))))
  <-> In k l \/ In k (od_keys d).
Proof.
  revert d idx; induction l as [|x l IH]; intros d idx; simpl.
  - tauto.
  - rewrite IH, od_keys_set. intuition congruence.
Qed.

Lemma rank_loop_NoDup (l : list string) (d : OrderedDict Z) (idx : Z) :
  NoDup (od_keys d) -> NoDup (od_keys (fst (fold_left rank_step l (d, idx)))).
Proof.
  revert d idx; induction l as [|x l IH]; intros d idx H; simpl.
  - exact H.
  - apply IH. now apply od_set_NoDup.
Qed.

(** A name outside the list keeps the rank it had before the loop. *)
Lemma rank_loop_get_other (l : list string) (d : OrderedDict Z) (idx : Z) k :
  ~ In k l -> od_get (fst (fold_left rank_step l (d, idx))) k = od_get d k.
Proof.
  revert d idx; induction l as [|x l IH]; intros d idx H; simpl.
  - reflexivity.
  - simpl in H. rewrite IH by tauto. rewrite od_get_set.
    destruct (String.eqb_spec x k); [tauto|reflexivity].
Qed.

(** A name of the list ends with one of the indices the loop handed out. *)
Lemma rank_loop_get_range (l : list string) (d : OrderedDict Z) (idx : Z) k :
  In k l ->
  exists r, od_get (fst (fold_left rank_step l (d, idx))) k = Some r
            /\ idx - Z.of_nat (List.length l) < r <= idx.
Proof.
  revert d idx; induction l as [|x l IH]; intros d idx H.
  - destruct H.
  - cbn [fold_left rank_step List.length]. rewrite Nat2Z.inj_succ.
    destruct (in_dec string_dec k l) as [Hin|Hnin].
    + destruct (IH (od_set x idx d) (idx - 1) Hin) as [r [Hr Hb]].
      exists r. split; [exact Hr|lia].
    + destruct H as [->|H]; [|tauto]. exists idx. split; [|lia].
      rewrite rank_loop_get_other by exact Hnin.
      rewrite od_get_set, String.eqb_refl. reflexivity.
Qed.

(** Without repetition, the [i]-th name ends with the [i]-th index. *)
Lemma rank_loop_get_nth (l : list string) (d : OrderedDict Z) (idx : Z) i :
  NoDup l -> (i < List.length l)%nat ->
  od_get (fst (fold_left rank_step l (d, idx))) (nth i l EmptyString)
  = Some (idx - Z.of_nat i).
Proof.
  revert d idx i; induction l as [|x l IH]; intros d idx i Hnd Hi.
  - simpl in Hi. lia.
  - inversion Hnd as [|? ? Hnin Hnd']; subst.
    cbn [fold_left rank_step]. destruct i as [|j].
    + cbn [nth]. rewrite rank_loop_get_other by exact Hnin.
      rewrite od_get_set, String.eqb_refl. f_equal. simpl. lia.
    + cbn [nth]. simpl in Hi. rewrite IH by (assumption || lia).
      f_equal. lia.
Qed.

Lemma rank_loop_keys_fresh (l : list string) (d : OrderedDict Z) (idx : Z) :
  NoDup (od_keys d ++ l) ->
  od_keys (fst (fold_left rank_step l (d, idx))) = (od_keys d ++ l)%list.
Proof.
  revert d idx; induction l as [|x l IH]; intros d idx H.
  - simpl. now rewrite app_nil_r.
  - cbn [fold_left rank_step].
    assert (Hx : ~ In x (od_keys d)).
    { intros Hin. apply NoDup_remove_2 in H. apply H.
      apply in_or_app. now left. }
    assert (Hk : od_keys (od_set x idx d) = (od_keys d ++ [x])%list).
    { rewrite od_set_fresh by exact Hx. unfold od_keys.
      now rewrite map_app. }
    rewrite IH; rewrite Hk, <- app_assoc; [reflexivity | exact H].
Qed.

Lemma neutral_loop_keys (n : list string) (d : OrderedDict Z) k :
  In k (od_keys (fold_left neutral_step n d)) <-> In k n \/ In k (od_keys d).
Proof.
  revert d; induction n as [|x n IH]; intros d; simpl.
  - tauto.
  - rewrite IH. unfold neutral_step. rewrite od_keys_set.
    intuition congruence.
Qed.

Lemma neutral_loop_NoDup (n : list string) (d : OrderedDict Z) :
  NoDup (od_keys d) -> NoDup (od_keys (fold_left neutral_step n d)).
Proof.
  revert d; induction n as [|x n IH]; intros d H; simpl.
  - exact H.
  - apply IH. now apply od_set_NoDup.
Qed.

Lemma neutral_loop_get_other (n : list string) (d : OrderedDict Z) k :
  ~ In k n -> od_get (fold_left neutral_step n d) k = od_get d k.
Proof.
  revert d; induction n as [|x n IH]; intros d H; simpl.
  - reflexivity.
  - simpl in H. rewrite IH by tauto. unfold neutral_step.
    rewrite od_get_set. destruct (String.eqb_spec x k); [tauto|reflexivity].
Qed.

Lemma neutral_loop_get (n : list string) (d : OrderedDict Z) k :
  In k n -> od_get (fold_left neutral_step n d) k = Some 0.
Proof.
  revert d; induction n as [|x n IH]; intros d H.
  - destruct H.
  - cbn [fold_left]. destruct (in_dec string_dec k n) as [Hin|Hnin].
    + now apply IH.
    + destruct H as [->|H]; [|tauto].
      rewrite neutral_loop_get_other by exact Hnin.
      unfold neutral_step. now rewrite od_get_set, String.eqb_refl.
Qed.

Lemma neutral_loop_keys_fresh (n : list string) (d : OrderedDict Z) :
  NoDup (od_keys d ++ n) ->
  od_keys (fold_left neutral_step n d) = (od_keys d ++ n)%list.
Proof.
  revert d; induction n as [|x n IH]; intros d H.
  - simpl. now rewrite app_nil_r.
  - cbn [fold_left].
    assert (Hx : ~ In x (od_keys d)).
    { intros Hin. apply NoDup_remove_2 in H. apply H.
      apply in_or_app. now left. }
    assert (Hk : od_keys (neutral_step d x) = (od_keys d ++ [x])%list).
    { unfold neutral_step. rewrite od_set_fresh by exact Hx. unfold od_keys.
      now rewrite map_app. }
    rewrite IH; rewrite Hk, <- app_assoc; [reflexivity | exact H].
Qed.

(** The keys of the returned dictionary are the names of the three lists. *)
Lemma create_dict_keys (g n dl : list string) k :
  In k (od_keys (create_dict_of_industries g n dl))
  <-> In k g \/ In k n \/ In k dl.
Proof.
  rewrite create_dict_unfold, rank_loop_keys, neutral_loop_keys,
    rank_loop_keys. simpl. tauto.
Qed.

Lemma create_dict_NoDup (g n dl : list string) :
  NoDup (od_keys (create_dict_of_industries g n dl)).
Proof.
  rewrite create_dict_unfold. apply rank_loop_NoDup, neutral_loop_NoDup,
    rank_loop_NoDup. constructor.
Qed.

(* ================================================================= *)
(** ** The sentence classifier *)

Lemma list_in_spec (x : string) (l : list string) :
  list_in x l = true <-> In x l.
Proof.
  unfold list_in. rewrite existsb_exists. split.
  - intros [y [Hy Heq]]. apply String.eqb_eq in Heq. now subst.
  - intros H. exists x. split; [exact H | apply String.eqb_refl].
Qed.

Lemma neutral_industries_spec (g dl : list string) (k : string) :
  In k (neutral_industries g dl)
  <-> In k LIST_OF_INDUSTRIES /\ ~ In k g /\ ~ In k dl.
Proof.
  unfold neutral_industries. rewrite filter_In, andb_true_iff,
    !negb_true_iff, <- !not_true_iff_false, !list_in_spec. tauto.
Qed.

(** The scanning loop appends, in reference order, the names that occur. *)
Lemma scan_loop (sentence : string) (l acc : list string) :
  fold_left (scan_step sentence) l acc
  = (acc ++ filter (fun industry => contains industry sentence) l)%list.
Proof.
  revert acc; induction l as [|x l IH]; intros acc; simpl.
  - now rewrite app_nil_r.
  - rewrite IH. unfold scan_step.
    destruct (contains x sentence); [|reflexivity].
    now rewrite <- app_assoc.
Qed.

(** The guarded index [sentence.split(":")[1]] is always in range. *)
Lemma post_colon_defined (sentence : string) :
  contains ":" sentence = true ->
  exists pre post rest, split ":" sentence = pre :: post :: rest
                        /\ getitem (split ":" sentence) 1 = Ok post.
Proof.
  intros H. apply split_present in H; [|discriminate].
  destruct (split ":" sentence) as [|pre [|post rest]]; simpl in H; try lia.
  exists pre, post, rest. split; [reflexivity | apply getitem_1].
Qed.

(** The classifier never raises. *)
Lemma classifier_total (sentence : string) :
  exists l, get_list_of_industries_from_sentence sentence = Ok l.
Proof.
  unfold get_list_of_industries_from_sentence.
  destruct (contains ":" sentence) eqn:E; [|eauto].
  destruct (post_colon_defined _ E) as [pre [post [rest [_ ->]]]].
  cbn [bind]. destruct (contains ";" post); eauto.
Qed.

(* ================================================================= *)
(** ** The paragraph processor *)

Lemma process_paragraph_ok (p s0 s1 : string) (rest g dl : list string) :
  split "." p = s0 :: s1 :: rest ->
  get_list_of_industries_from_sentence s0 = Ok g ->
  get_list_of_industries_from_sentence s1 = Ok dl ->
  process_paragraph p
  = Ok (create_dict_of_industries g (neutral_industries g dl) dl).
Proof.
  intros Hs Hg Hd. unfold process_paragraph.
  rewrite Hs, getitem_0, getitem_1. cbn [bind]. rewrite Hg, Hd. reflexivity.
Qed.

Lemma process_paragraph_no_period (p : string) :
  contains "." p = false -> process_paragraph p = Raise IndexError.
Proof.
  intros H. unfold process_paragraph. rewrite (split_absent _ _ H).
  rewrite getitem_0. cbn [bind]. rewrite getitem_1_short by (simpl; lia).
  reflexivity.
Qed.

Lemma process_paragraph_period (p : string) :
  contains "." p = true ->
  exists s0 s1 rest g dl,
    split "." p = s0 :: s1 :: rest
    /\ get_list_of_industries_from_sentence s0 = Ok g
    /\ get_list_of_industries_from_sentence s1 = Ok dl
    /\ process_paragraph p
       = Ok (create_dict_of_industries g (neutral_industries g dl) dl).
Proof.
  intros H. apply split_present in H; [|discriminate].
  destruct (split "." p) as [|s0 [|s1 rest]] eqn:Hs; simpl in H; try lia.
  destruct (classifier_total s0) as [g Hg].
  destruct (classifier_total s1) as [dl Hd].
  exists s0, s1, rest, g, dl. repeat split; try assumption.
  now apply (process_paragraph_ok p s0 s1 rest g dl).
Qed.

Lemma process_paragraph_inv (p : string) (d : OrderedDict Z) :
  process_paragraph p = Ok d ->
  exists s0 s1 rest g dl,
    split "." p = s0 :: s1 :: rest
    /\ get_list_of_industries_from_sentence s0 = Ok g
    /\ get_list_of_industries_from_sentence s1 = Ok dl
    /\ d = create_dict_of_industries g (neutral_industries g dl) dl.
Proof.
  intros H. destruct (contains "." p) eqn:E.
  - destruct (process_paragraph_period p E)
      as [s0 [s1 [rest [g [dl [Hs [Hg [Hd Hp]]]]]]]].
    exists s0, s1, rest, g, dl. repeat split; try assumption. congruence.
  - rewrite (process_paragraph_no_period p E) in H. discriminate.
Qed.

(* ================================================================= *)
(** ** Counting the characters that are not white space

    Stripping and turning line feeds into spaces keep that number;
    removing an occurrence of " and " lowers it by three. *)

Lemma nonblank_app (a b : string) :
  nonblank (a ++ b) = (nonblank a + nonblank b)%nat.
Proof. induction a as [|c a IH]; simpl; [reflexivity | rewrite IH; lia]. Qed.

Lemma nonblank_lstrip (s : string) : nonblank (lstrip s) = nonblank s.
Proof.
  induction s as [|c s IH]; [reflexivity|]. cbn [lstrip nonblank].
  destruct (isspace c) eqn:E; [exact IH|]. cbn [nonblank]. now rewrite E.
Qed.

Lemma nonblank_rstrip (s : string) : nonblank (rstrip s) = nonblank s.
Proof.
  induction s as [|c s IH]; [reflexivity|]. cbn [rstrip nonblank].
  destruct (rstrip s) as [|x r].
  - rewrite <- IH. destruct (isspace c) eqn:E; cbn [nonblank];
      [reflexivity | now rewrite E].
  - cbn [nonblank] in *. now rewrite IH.
Qed.

Lemma nonblank_strip (s : string) : nonblank (strip s) = nonblank s.
Proof. unfold strip. now rewrite nonblank_rstrip, nonblank_lstrip. Qed.

Lemma nonblank_replace_LF (s : string) :
  nonblank (replace LF " " s) = nonblank s.
Proof.
  unfold replace, LF. induction s as [|c s IH]; [reflexivity|].
  cbn [replace_go startswith String.length Nat.pred].
  rewrite andb_true_r. destruct (Ascii.eqb_spec (ascii_of_nat 10) c) as [<-|_].
  - cbn [append nonblank]. now rewrite IH.
  - cbn [nonblank]. now rewrite IH.
Qed.

Lemma nonblank_drop (k : nat) (s : string) :
  (nonblank (drop k s) <= nonblank s)%nat.
Proof.
  revert k; induction s as [|c s IH]; intros k; destruct k as [|k];
    cbn [drop nonblank]; try lia.
  specialize (IH k). lia.
Qed.

Lemma nonblank_remove_and_le (s : string) (skip : nat) :
  (nonblank (replace_go " and " EmptyString s skip)
   <= nonblank (drop skip s))%nat.
Proof.
  revert skip; induction s as [|c s IH]; intros skip.
  - destruct skip; simpl; lia.
  - destruct skip as [|k]; cbn [replace_go drop]; [|apply IH].
    destruct (startswith " and " (String c s)).
    + cbn [append]. specialize (IH (Nat.pred (String.length " and "))).
      pose proof (nonblank_drop (Nat.pred (String.length " and ")) s).
      cbn [nonblank]. lia.
    + cbn [nonblank]. specialize (IH 0%nat). cbn [drop] in IH. lia.
Qed.

(** Where " and " occurs, removing it removes characters that are not
    white space. *)
Lemma nonblank_remove_and_lt (s : string) :
  contains " and " s = true ->
  (nonblank (replace " and " EmptyString s) < nonblank s)%nat.
Proof.
  unfold replace. induction s as [|c s IH]; intros H; [discriminate|].
  cbn [replace_go]. cbn [contains] in H.
  destruct (startswith " and " (String c s)) eqn:E.
  - apply startswith_spec in E as [t Ht]. injection Ht as -> ->.
    pose proof (nonblank_remove_and_le ("and " ++ t)
                  (Nat.pred (String.length " and "))) as Hle.
    cbn [append]. simpl in Hle. simpl. lia.
  - cbn [orb] in H. specialize (IH H). cbn [nonblank]. lia.
Qed.

(** The single name equals its full normalisation only if " and " does
    not occur in it. *)
Lemma single_name_differs (post : string) :
  contains " and " post = true ->
  strip (replace LF " " post) <> spec_normalize post.
Proof.
  intros H Heq. apply (f_equal nonblank) in Heq. unfold spec_normalize in Heq.
  rewrite !nonblank_strip, !nonblank_replace_LF in Heq.
  apply nonblank_remove_and_lt in H. lia.
Qed.

(* ================================================================= *)
(** ** Properties of the sentence classifier *)

(** C5, as stated, fails: in the single-name case the classifier keeps
    " and ".  On ": Oil and Gas" it returns "Oil and Gas", where the
    normalisation of the specification gives "OilGas". *)
Lemma single_name_keeps_and :
  contains ":" ": Oil and Gas" = true
  /\ split ":" ": Oil and Gas" = [EmptyString; " Oil and Gas"]
  /\ contains ";" " Oil and Gas" = false
  /\ get_list_of_industries_from_sentence ": Oil and Gas"
     = Ok ["Oil and Gas"]
  /\ spec_normalize " Oil and Gas" = "OilGas"
  /\ get_list_of_industries_from_sentence ": Oil and Gas"
     <> Ok [spec_normalize " Oil and Gas"].
Proof. repeat split; try reflexivity. vm_compute. discriminate. Qed.

(** C5, amended: with a colon in the sentence, the text between the first
    and the second colon is the name list.  If it has a semicolon, every
    piece between semicolons is normalised in full (" and " removed, line
    feeds turned into spaces, ends stripped).  If it has none, the one
    name only has its line feeds turned into spaces and its ends stripped;
    that is the full normalisation exactly when " and " does not occur. *)
Theorem colon_path_normalisation (sentence : string) :
  contains ":" sentence = true ->
  exists pre post rest,
    split ":" sentence = pre :: post :: rest
    /\ (contains ";" post = true ->
        get_list_of_industries_from_sentence sentence
        = Ok (map spec_normalize (split ";" post)))
    /\ (contains ";" post = false ->
        get_list_of_industries_from_sentence sentence
        = Ok [strip (replace LF " " post)]
        /\ (get_list_of_industries_from_sentence sentence
            = Ok [spec_normalize post]
            <-> contains " and " post = false)).
Proof.
  intros H. destruct (post_colon_defined _ H) as [pre [post [rest [Hs Hg]]]].
  exists pre, post, rest. split; [exact Hs|].
  unfold get_list_of_industries_from_sentence. rewrite H, Hg. cbn [bind].
  split; intros Hsemi; rewrite Hsemi.
  - reflexivity.
  - split; [reflexivity|]. split.
    + intros Heq. destruct (contains " and " post) eqn:Hand; [|reflexivity].
      exfalso. apply (single_name_differs post Hand). cbn [app] in Heq.
      now injection Heq.
    + intros Hand. unfold spec_normalize.
      now rewrite (replace_absent " and " EmptyString post Hand).
Qed.

Lemma colon_path_normalisation_witness :
  contains ":" "grew: Paper Products; and Machinery" = true
  /\ exists pre post rest,
       split ":" "grew: Paper Products; and Machinery" = pre :: post :: rest
       /\ (contains ";" post = true ->
           get_list_of_industries_from_sentence
             "grew: Paper Products; and Machinery"
           = Ok (map spec_normalize (split ";" post)))
       /\ (contains ";" post = false ->
           get_list_of_industries_from_sentence
             "grew: Paper Products; and Machinery"
           = Ok [strip (replace LF " " post)]
           /\ (get_list_of_industries_from_sentence
                 "grew: Paper Products; and Machinery"
               = Ok [spec_normalize post]
               <-> contains " and " post = false)).
Proof.
  split; [reflexivity|].
  apply (colon_path_normalisation "grew: Paper Products; and Machinery").
  reflexivity.
Defined.

(** C6: on any sentence whose text after its first colon is
    "Textile Mills; Primary Metals; and Machinery" the classifier returns
    the three names in that order, and on ": Furniture & Related Products"
    it returns that one name. *)
Theorem classifier_examples (pre : string) :
  contains ":" pre = false ->
  get_list_of_industries_from_sentence
    (pre ++ ":" ++ "Textile Mills; Primary Metals; and Machinery")
  = Ok ["Textile Mills"; "Primary Metals"; "Machinery"]
  /\ get_list_of_industries_from_sentence ": Furniture & Related Products"
     = Ok ["Furniture & Related Products"].
Proof.
  intros H. split; [|reflexivity].
  unfold get_list_of_industries_from_sentence.
  change (":" ++ "Textile Mills; Primary Metals; and Machinery")
    with (String ":" "Textile Mills; Primary Metals; and Machinery").
  rewrite contains_first_char, (split_first_char _ _ _ H).
  replace (split ":" "Textile Mills; Primary Metals; and Machinery")
    with ["Textile Mills; Primary Metals; and Machinery"] by reflexivity.
  rewrite getitem_1. reflexivity.
Qed.

Lemma classifier_examples_witness :
  contains ":" "The industries reporting growth are" = false
  /\ get_list_of_industries_from_sentence
       ("The industries reporting growth are" ++ ":"
        ++ "Textile Mills; Primary Metals; and Machinery")
     = Ok ["Textile Mills"; "Primary Metals"; "Machinery"]
  /\ get_list_of_industries_from_sentence ": Furniture & Related Products"
     = Ok ["Furniture & Related Products"].
Proof.
  split; [reflexivity|].
  apply (classifier_examples "The industries reporting growth are").
  reflexivity.
Defined.

(** C7: on a fragment without a colon the classifier returns the fixed
    industries whose name is a substring of the fragment, in the order of
    the reference list. *)
Theorem no_colon_scan (sentence : string) :
  contains ":" sentence = false ->
  exists l,
    get_list_of_industries_from_sentence sentence = Ok l
    /\ l = filter (fun industry => contains industry sentence)
                  LIST_OF_INDUSTRIES
    /\ forall x, In x l <->
         In x LIST_OF_INDUSTRIES /\ exists a b, sentence = a ++ x ++ b.
Proof.
  intros H. eexists. split; [|split; [reflexivity|]].
  - unfold get_list_of_industries_from_sentence. rewrite H, scan_loop.
    reflexivity.
  - intros x. rewrite filter_In, contains_spec. reflexivity.
Qed.

Lemma no_colon_scan_witness :
  contains ":" "Machinery grew, then Textile Mills" = false
  /\ exists l,
       get_list_of_industries_from_sentence
         "Machinery grew, then Textile Mills" = Ok l
       /\ l = filter (fun industry =>
                        contains industry "Machinery grew, then Textile Mills")
                     LIST_OF_INDUSTRIES
       /\ forall x, In x l <->
            In x LIST_OF_INDUSTRIES
            /\ exists a b, "Machinery grew, then Textile Mills" = a ++ x ++ b.
Proof.
  split; [reflexivity|].
  apply (no_colon_scan "Machinery grew, then Textile Mills"). reflexivity.
Defined.

(** The mention order is lost on that path. *)
Example no_colon_scan_order :
  get_list_of_industries_from_sentence "Machinery grew, then Textile Mills"
  = Ok ["Textile Mills"; "Machinery"].
Proof. reflexivity. Qed.

(* ================================================================= *)
(** ** Properties of the paragraph processor *)

(** C8: the paragraph is split on "."; piece 0 is the growth statement and
    piece 1 the decline statement.  Without a period the processor raises
    [IndexError]; with one it returns the dictionary built from the two
    pieces. *)
Theorem paragraph_needs_a_period (p : string) :
  (contains "." p = false -> process_paragraph p = Raise IndexError)
  /\ (contains "." p = true ->
      exists s0 s1 rest g dl,
        split "." p = s0 :: s1 :: rest
        /\ get_list_of_industries_from_sentence s0 = Ok g
        /\ get_list_of_industries_from_sentence s1 = Ok dl
        /\ process_paragraph p
           = Ok (create_dict_of_industries g (neutral_industries g dl) dl)).
Proof.
  split; [apply process_paragraph_no_period | apply process_paragraph_period].
Qed.

Lemma paragraph_needs_a_period_witness :
  process_paragraph "no industry reported growth" = Raise IndexError
  /\ exists s0 s1 rest g dl,
       split "." "grew: Machinery. fell: Wood Products." = s0 :: s1 :: rest
       /\ get_list_of_industries_from_sentence s0 = Ok g
       /\ get_list_of_industries_from_sentence s1 = Ok dl
       /\ process_paragraph "grew: Machinery. fell: Wood Products."
          = Ok (create_dict_of_industries g (neutral_industries g dl) dl).
Proof.
  split.
  - apply (proj1 (paragraph_needs_a_period "no industry reported growth")).
    reflexivity.
  - apply (proj2 (paragraph_needs_a_period
                    "grew: Machinery. fell: Wood Products.")).
    reflexivity.
Defined.

Lemma LIST_OF_INDUSTRIES_NoDup : NoDup LIST_OF_INDUSTRIES.
Proof.
  replace LIST_OF_INDUSTRIES with (nodup string_dec LIST_OF_INDUSTRIES)
    by (vm_compute; reflexivity).
  apply NoDup_nodup.
Qed.

(** Every fixed industry is a key, and every key is a fixed industry or a
    name the classifier extracted. *)
Lemma report_keys_spec (g dl : list string) (k : string) :
  In k (od_keys (create_dict_of_industries g (neutral_industries g dl) dl))
  <-> In k LIST_OF_INDUSTRIES \/ In k g \/ In k dl.
Proof.
  rewrite create_dict_keys, neutral_industries_spec.
  destruct (in_dec string_dec k g), (in_dec string_dec k dl); tauto.
Qed.

(** C10: for a paragraph with a period the processor returns a dictionary
    in which each of the 18 fixed industries is a key; names extracted from
    the two statements that are not in the fixed list are further keys. *)
Theorem no_industry_omitted (p : string) :
  contains "." p = true ->
  exists s0 s1 rest g dl d,
    split "." p = s0 :: s1 :: rest
    /\ get_list_of_industries_from_sentence s0 = Ok g
    /\ get_list_of_industries_from_sentence s1 = Ok dl
    /\ process_paragraph p = Ok d
    /\ (forall industry,
          In industry LIST_OF_INDUSTRIES -> In industry (od_keys d))
    /\ (forall k, In k (od_keys d)
                  <-> In k LIST_OF_INDUSTRIES \/ In k g \/ In k dl).
Proof.
  intros H.
  destruct (process_paragraph_period p H)
    as [s0 [s1 [rest [g [dl [Hs [Hg [Hd Hp]]]]]]]].
  exists s0, s1, rest, g, dl. eexists.
  repeat (split; [eassumption|]). split.
  - intros industry Hin. apply report_keys_spec. now left.
  - intros k. apply report_keys_spec.
Qed.

Lemma no_industry_omitted_witness :
  contains "." "grew: Machinery; and Plastics Products. none fell." = true
  /\ exists s0 s1 rest g dl d,
       split "." "grew: Machinery; and Plastics Products. none fell."
       = s0 :: s1 :: rest
       /\ get_list_of_industries_from_sentence s0 = Ok g
       /\ get_list_of_industries_from_sentence s1 = Ok dl
       /\ process_paragraph
            "grew: Machinery; and Plastics Products. none fell." = Ok d
       /\ (forall industry,
             In industry LIST_OF_INDUSTRIES -> In industry (od_keys d))
       /\ (forall k, In k (od_keys d)
                     <-> In k LIST_OF_INDUSTRIES \/ In k g \/ In k dl).
Proof.
  split; [reflexivity|].
  apply (no_industry_omitted
           "grew: Machinery; and Plastics Products. none fell.").
  reflexivity.
Defined.

(** C1, as stated, fails: a name outside the fixed list becomes a
    nineteenth key. *)
Lemma unknown_name_is_a_key :
  exists d,
    process_paragraph
      "reported growth: Textile Mills; and Plastics Products. reported decrease: Machinery."
    = Ok d
    /\ In "Plastics Products" (od_keys d)
    /\ ~ In "Plastics Products" LIST_OF_INDUSTRIES
    /\ List.length d = 19%nat.
Proof.
  eexists. split; [vm_compute; reflexivity|]. split; [|split].
  - simpl. tauto.
  - intros H. apply (proj2 (list_in_spec _ _)) in H. vm_compute in H.
    discriminate.
  - reflexivity.
Qed.

(** C1, amended: the keys of the dictionary returned for a paragraph are
    pairwise distinct and include each of the 18 fixed industries; when all
    the names extracted from the growth and the decline statement are fixed
    industries, the keys are exactly the 18 fixed industries, each once. *)
Theorem report_keys (p s0 s1 : string) (rest g dl : list string) :
  split "." p = s0 :: s1 :: rest ->
  get_list_of_industries_from_sentence s0 = Ok g ->
  get_list_of_industries_from_sentence s1 = Ok dl ->
  exists d,
    process_paragraph p = Ok d
    /\ NoDup (od_keys d)
    /\ incl LIST_OF_INDUSTRIES (od_keys d)
    /\ (incl g LIST_OF_INDUSTRIES -> incl dl LIST_OF_INDUSTRIES ->
        Permutation (od_keys d) LIST_OF_INDUSTRIES).
Proof.
  intros Hs Hg Hd. eexists.
  split; [exact (process_paragraph_ok p s0 s1 rest g dl Hs Hg Hd)|].
  split; [apply create_dict_NoDup|]. split.
  - intros k Hk. apply report_keys_spec. now left.
  - intros Ig Id. apply NoDup_Permutation.
    + apply create_dict_NoDup.
    + apply LIST_OF_INDUSTRIES_NoDup.
    + intros k. rewrite report_keys_spec. split; [|tauto].
      intros [H|[H|H]]; [exact H | now apply Ig | now apply Id].
Qed.

Lemma report_keys_witness :
  exists d,
    process_paragraph
      "reported growth: Textile Mills; Primary Metals. reported decrease: Machinery."
    = Ok d
    /\ NoDup (od_keys d)
    /\ incl LIST_OF_INDUSTRIES (od_keys d)
    /\ Permutation (od_keys d) LIST_OF_INDUSTRIES.
Proof.
  destruct (report_keys
              "reported growth: Textile Mills; Primary Metals. reported decrease: Machinery."
              "reported growth: Textile Mills; Primary Metals"
              " reported decrease: Machinery" [EmptyString]
              ["Textile Mills"; "Primary Metals"] ["Machinery"]
              eq_refl eq_refl eq_refl) as [d [Hp [Hn [Hi Hperm]]]].
  exists d. repeat split; try assumption. apply Hperm.
  - intros x [<-|[<-|[]]]; simpl; tauto.
  - intros x [<-|[]]; simpl; tauto.
Defined.

(** C3, as stated, fails: a name extracted from both statements ends with
    a negative rank although it was in the growth statement. *)
Lemma growth_name_with_negative_rank :
  split "." "grew: Machinery. fell: Machinery."
  = ["grew: Machinery"; " fell: Machinery"; EmptyString]
  /\ get_list_of_industries_from_sentence "grew: Machinery" = Ok ["Machinery"]
  /\ get_list_of_industries_from_sentence " fell: Machinery" = Ok ["Machinery"]
  /\ exists d,
       process_paragraph "grew: Machinery. fell: Machinery." = Ok d
       /\ od_get d "Machinery" = Some (-1)
       /\ ~ (0 < -1 <-> In "Machinery" ["Machinery"]).
Proof.
  repeat split; try reflexivity. eexists.
  split; [vm_compute; reflexivity|]. split; [reflexivity|].
  intros [_ H]. specialize (H (or_introl eq_refl)). lia.
Qed.

(** C3, amended: for every industry of the dictionary returned for a
    paragraph, the rank is negative if and only if the name was extracted
    from the decline statement, zero if and only if it was extracted from
    neither statement, and positive if and only if it was extracted from
    the growth statement and not from the decline statement. *)
Theorem rank_sign (p s0 s1 : string) (rest g dl : list string) :
  split "." p = s0 :: s1 :: rest ->
  get_list_of_industries_from_sentence s0 = Ok g ->
  get_list_of_industries_from_sentence s1 = Ok dl ->
  exists d,
    process_paragraph p = Ok d
    /\ forall industry rank,
         od_get d industry = Some rank ->
         (rank < 0 <-> In industry dl)
         /\ (rank = 0 <-> ~ In industry g /\ ~ In industry dl)
         /\ (0 < rank <-> In industry g /\ ~ In industry dl).
Proof.
  intros Hs Hg Hd. eexists.
  split; [exact (process_paragraph_ok p s0 s1 rest g dl Hs Hg Hd)|].
  intros k r. rewrite create_dict_unfold.
  destruct (in_dec string_dec k dl) as [Kd|Kd].
  - destruct (rank_loop_get_range dl
                (fold_left neutral_step (neutral_industries g dl)
                   (fst (fold_left rank_step g
                           (([] : OrderedDict Z),
                            Z.of_nat (List.length g))))) (-1) k Kd)
      as [r' [Hr' Hb]].
    rewrite Hr'. intros [= <-]. repeat split; try tauto; lia.
  - rewrite rank_loop_get_other by exact Kd.
    destruct (in_dec string_dec k (neutral_industries g dl)) as [Kn|Kn].
    + rewrite neutral_loop_get by exact Kn. intros [= <-].
      apply neutral_industries_spec in Kn. repeat split; try tauto; lia.
    + rewrite neutral_loop_get_other by exact Kn.
      destruct (in_dec string_dec k g) as [Kg|Kg].
      * destruct (rank_loop_get_range g [] (Z.of_nat (List.length g)) k Kg)
          as [r' [Hr' Hb]].
        rewrite Hr'. intros [= <-]. repeat split; try tauto; lia.
      * rewrite rank_loop_get_other by exact Kg. discriminate.
Qed.

Lemma rank_sign_witness :
  exists d,
    process_paragraph
      "reported growth: Textile Mills; Primary Metals. reported decrease: Machinery."
    = Ok d
    /\ forall industry rank,
         od_get d industry = Some rank ->
         (rank < 0 <-> In industry ["Machinery"])
         /\ (rank = 0 <-> ~ In industry ["Textile Mills"; "Primary Metals"]
                          /\ ~ In industry ["Machinery"])
         /\ (0 < rank <-> In industry ["Textile Mills"; "Primary Metals"]
                          /\ ~ In industry ["Machinery"]).
Proof.
  apply (rank_sign
           "reported growth: Textile Mills; Primary Metals. reported decrease: Machinery."
           "reported growth: Textile Mills; Primary Metals"
           " reported decrease: Machinery" [EmptyString]
           ["Textile Mills"; "Primary Metals"] ["Machinery"]);
    reflexivity.
Defined.

(* ================================================================= *)
(** ** Properties of the rank assignment *)

(** C4, as stated, fails: a name that is both in the growth list and in
    the decline list keeps only the rank written last. *)
Lemma repeated_name_is_overwritten :
  create_dict_of_industries ["Machinery"] [] ["Machinery"]
  = [("Machinery", -1)]
  /\ od_get (create_dict_of_industries ["Machinery"] [] ["Machinery"])
            (nth 0 ["Machinery"] EmptyString)
     <> Some (Z.of_nat (List.length ["Machinery"]) - Z.of_nat 0).
Proof. split; [reflexivity | vm_compute; discriminate]. Qed.

(** C4, amended: when no name occurs twice within or across the three
    lists, the keys of the returned dictionary are the growth list, then
    the neutral list, then the decline list; the [i]-th growth name (from
    0) has rank [len(growth) - i], every neutral name has rank 0, and the
    [i]-th decline name has rank [-1 - i]. *)
Theorem rank_magnitudes (g n dl : list string) :
  NoDup (g ++ n ++ dl) ->
  od_keys (create_dict_of_industries g n dl) = (g ++ n ++ dl)%list
  /\ (forall i, (i < List.length g)%nat ->
        od_get (create_dict_of_industries g n dl) (nth i g EmptyString)
        = Some (Z.of_nat (List.length g) - Z.of_nat i))
  /\ (forall x, In x n ->
        od_get (create_dict_of_industries g n dl) x = Some 0)
  /\ (forall i, (i < List.length dl)%nat ->
        od_get (create_dict_of_industries g n dl) (nth i dl EmptyString)
        = Some (-1 - Z.of_nat i)).
Proof.
  intros H. rewrite create_dict_unfold.
  assert (Hg : NoDup g) by (now apply NoDup_app_remove_r in H).
  assert (Hndl : NoDup (n ++ dl)) by (now apply NoDup_app_remove_l in H).
  assert (Hdl : NoDup dl) by (now apply NoDup_app_remove_l in Hndl).
  assert (Dgn : forall x, In x g -> ~ In x n /\ ~ In x dl).
  { intros x Hx. revert H. clear -Hx. induction g as [|y g IH]; [destruct Hx|].
    simpl. intros H. inversion H as [|? ? Hnin Hnd]; subst.
    destruct Hx as [->|Hx]; [|now apply IH].
    rewrite !in_app_iff in Hnin. tauto. }
  assert (Dnd : forall x, In x n -> ~ In x dl).
  { intros x Hx. revert Hndl. clear -Hx. induction n as [|y n IH]; [destruct Hx|].
    simpl. intros H. inversion H as [|? ? Hnin Hnd]; subst.
    destruct Hx as [->|Hx]; [|now apply IH].
    rewrite in_app_iff in Hnin. tauto. }
  assert (K1 : od_keys (fst (fold_left rank_step g
                               (([] : OrderedDict Z),
                                Z.of_nat (List.length g)))) = g).
  { now rewrite rank_loop_keys_fresh. }
  assert (K2 : od_keys (fold_left neutral_step n
                          (fst (fold_left rank_step g
                                  (([] : OrderedDict Z),
                                   Z.of_nat (List.length g)))))
               = (g ++ n)%list).
  { rewrite neutral_loop_keys_fresh; rewrite K1; [reflexivity|].
    rewrite app_assoc in H. now apply NoDup_app_remove_r in H. }
  split; [|split; [|split]].
  - rewrite rank_loop_keys_fresh; rewrite K2, <- app_assoc;
      [reflexivity | exact H].
  - intros i Hi.
    assert (Hin : In (nth i g EmptyString) g) by (now apply nth_In).
    rewrite rank_loop_get_other by (now apply Dgn).
    rewrite neutral_loop_get_other by (now apply Dgn).
    now apply rank_loop_get_nth.
  - intros x Hx. rewrite rank_loop_get_other by (now apply Dnd).
    now apply neutral_loop_get.
  - intros i Hi. now apply rank_loop_get_nth.
Qed.

Lemma rank_magnitudes_witness :
  od_keys (create_dict_of_industries
             ["Textile Mills"; "Primary Metals"] ["Wood Products"]
             ["Machinery"; "Paper Products"])
  = ["Textile Mills"; "Primary Metals"; "Wood Products";
     "Machinery"; "Paper Products"]
  /\ od_get (create_dict_of_industries
               ["Textile Mills"; "Primary Metals"] ["Wood Products"]
               ["Machinery"; "Paper Products"]) "Textile Mills" = Some 2
  /\ od_get (create_dict_of_industries
               ["Textile Mills"; "Primary Metals"] ["Wood Products"]
               ["Machinery"; "Paper Products"]) "Paper Products" = Some (-2).
Proof.
  assert (Hnd : NoDup (["Textile Mills"; "Primary Metals"]
                       ++ ["Wood Products"]
                       ++ ["Machinery"; "Paper Products"])).
  { replace (["Textile Mills"; "Primary Metals"] ++ ["Wood Products"]
             ++ ["Machinery"; "Paper Products"])%list
      with (nodup string_dec
              ["Textile Mills"; "Primary Metals"; "Wood Products";
               "Machinery"; "Paper Products"])
      by (vm_compute; reflexivity).
    apply NoDup_nodup. }
  destruct (rank_magnitudes
              ["Textile Mills"; "Primary Metals"] ["Wood Products"]
              ["Machinery"; "Paper Products"] Hnd) as [Hk [Hgr [_ Hde]]].
  split; [exact Hk|]. split.
  - apply (Hgr 0%nat). simpl. lia.
  - apply (Hde 1%nat). simpl. lia.
Defined.

(* ================================================================= *)
(** ** Properties of the report segmenter *)

Lemma bind_Ok {A B : Type} (m : result A) (k : A -> result B) (b : B) :
  bind m k = Ok b -> exists a, m = Ok a /\ k a = Ok b.
Proof. destruct m as [a|e]; simpl; [eauto | discriminate]. Qed.

Lemma od_keys_od_set {V : Type} (k : string) (v : V) (d : OrderedDict V) :
  od_keys (od_set k v d) = keys_set k (od_keys d).
Proof.
  unfold od_keys. induction d as [|[k0 v0] d IH]; simpl.
  - reflexivity.
  - destruct (String.eqb k0 k); simpl; [reflexivity | now rewrite IH].
Qed.

Lemma od_set_In {V : Type} (k : string) (v : V) (d : OrderedDict V) k' v' :
  In (k', v') (od_set k v d) -> v' = v \/ In (k', v') d.
Proof.
  induction d as [|[k0 v0] d IH]; simpl.
  - intros [[= _ <-]|[]]. now left.
  - destruct (String.eqb k0 k); simpl.
    + intros [[= _ <-]|H]; [now left | right; now right].
    + intros [H|H]; [right; now left|].
      destruct (IH H); [now left | right; now right].
Qed.

(** A pass that does not raise stores, under the label before the current
    one, what [process_paragraph] returned for some paragraph. *)
Lemma segment_step_Ok (st st' : list string * OrderedDict (OrderedDict Z))
  (i : nat) :
  segment_step st i = Ok st' ->
  exists key paragraph processed_paragraph,
    getitem LIST_OF_INDICATORS (Z.of_nat i - 1) = Ok key
    /\ process_paragraph paragraph = Ok processed_paragraph
    /\ snd st' = od_set key processed_paragraph (snd st).
Proof.
  destruct st as [previous_text industries_dict]. unfold segment_step.
  intros H.
  apply bind_Ok in H as [remaining [_ H]].
  apply bind_Ok in H as [label [_ H]].
  apply bind_Ok in H as [verbose [_ H]].
  apply bind_Ok in H as [paragraph [_ H]].
  apply bind_Ok in H as [processed_paragraph [Hp H]].
  apply bind_Ok in H as [key [Hk H]].
  injection H as <-. exists key, paragraph, processed_paragraph.
  repeat split; assumption.
Qed.

Lemma segment_loop_Ok (indices : list nat)
  (st st' : list string * OrderedDict (OrderedDict Z)) :
  segment_loop indices st = Ok st' ->
  od_keys (snd st') = fold_left keys_step indices (od_keys (snd st))
  /\ ((forall k v, In (k, v) (snd st) ->
         exists paragraph, process_paragraph paragraph = Ok v) ->
      forall k v, In (k, v) (snd st') ->
        exists paragraph, process_paragraph paragraph = Ok v).
Proof.
  revert st; induction indices as [|i indices IH]; intros st H.
  - simpl in H. injection H as <-. simpl. tauto.
  - cbn [segment_loop] in H. apply bind_Ok in H as [st1 [H1 H]].
    destruct (segment_step_Ok _ _ _ H1) as [key [para [pp [Hk [Hp Hs]]]]].
    destruct (IH _ H) as [IHk IHv]. split.
    + rewrite IHk, Hs, od_keys_od_set. cbn [fold_left]. f_equal.
      unfold keys_step. now rewrite Hk.
    + intros Hst. apply IHv. intros k v Hin. rewrite Hs in Hin.
      apply od_set_In in Hin as [->|Hin]; [now exists para | eauto].
Qed.

(** C2, as stated, fails: on a document with the eleven labels in order
    the segmenter returns ten entries, none for the last label; and such a
    document need not have the sentence structure the loop indexes into,
    in which case the loop raises. *)
Lemma last_indicator_has_no_entry :
  labels_in_order LIST_OF_INDICATORS example_document = true
  /\ (exists r,
        segment_report example_document = Ok r
        /\ List.length r = 10%nat
        /\ ~ In "BUYING POLICY" (od_keys r)
        /\ od_keys r <> LIST_OF_INDICATORS)
  /\ labels_in_order LIST_OF_INDICATORS labels_only_document = true
  /\ segment_report labels_only_document = Raise IndexError.
Proof.
  split; [vm_compute; reflexivity|]. split; [|split; vm_compute; reflexivity].
  eexists. split; [vm_compute; reflexivity|]. split; [reflexivity|]. split.
  - intros H. apply (proj2 (list_in_spec _ _)) in H. vm_compute in H.
    discriminate.
  - vm_compute. discriminate.
Qed.

(** C2, amended: whenever the segmenter returns a report, the report has
    exactly one entry for each of the first ten indicators, in the fixed
    order, and each entry is what the paragraph processor returned for
    some paragraph; the last label, "BUYING POLICY", only ends the section
    of "IMPORTS" and has no entry. *)
Theorem segmenter_entries (text : string)
  (report : OrderedDict (OrderedDict Z)) :
  segment_report text = Ok report ->
  od_keys report = removelast LIST_OF_INDICATORS
  /\ List.length report = 10%nat
  /\ forall indicator indicator_report,
       In (indicator, indicator_report) report ->
       exists paragraph, process_paragraph paragraph = Ok indicator_report.
Proof.
  unfold segment_report. intros H.
  apply bind_Ok in H as [label0 [_ H]].
  apply bind_Ok in H as [st [Hloop H]]. injection H as <-.
  apply segment_loop_Ok in Hloop as [Hk Hv]. cbn [snd od_keys map] in Hk, Hv.
  assert (Hkeys : od_keys (snd st) = removelast LIST_OF_INDICATORS).
  { rewrite Hk. vm_compute. reflexivity. }
  split; [exact Hkeys|]. split.
  - unfold od_keys in Hkeys. rewrite <- (length_map fst), Hkeys. reflexivity.
  - apply Hv. intros k v [].
Qed.

Lemma segmenter_entries_witness :
  exists report,
    segment_report example_document = Ok report
    /\ od_keys report = removelast LIST_OF_INDICATORS
    /\ List.length report = 10%nat
    /\ forall indicator indicator_report,
         In (indicator, indicator_report) report ->
         exists paragraph, process_paragraph paragraph = Ok indicator_report.
Proof.
  eexists. split; [vm_compute; reflexivity|].
  apply (segmenter_entries example_document). vm_compute. reflexivity.
Defined.

(* ================================================================= *)
(** ** The name of the output file *)

Lemma startswith_pdf_app (s : string) :
  startswith "pdf" s = false -> startswith "pdf" (s ++ ".pdf") = false.
Proof.
  destruct s as [|c1 [|c2 [|c3 s]]]; simpl; intros H.
  - reflexivity.
  - now rewrite andb_false_r.
  - now rewrite !andb_false_r.
  - exact H.
Qed.

(** A name that ends in ".pdf" and has no other "pdf" gets the extension
    "xlsx" and is otherwise unchanged. *)
Lemma output_filename_plain (stem : string) :
  contains "pdf" stem = false ->
  output_filename (stem ++ ".pdf") = stem ++ ".xlsx".
Proof.
  unfold output_filename, replace. induction stem as [|c stem IH]; intros H.
  - reflexivity.
  - apply contains_cons_false in H as [H1 H2].
    apply startswith_pdf_app in H1.
    change ((String c stem ++ ".pdf")) with (String c (stem ++ ".pdf")) in *.
    cbn [replace_go]. rewrite H1, (IH H2). reflexivity.
Qed.

(** C9: every "pdf" in the path is replaced, not only the extension: a
    directory named "pdfs" is renamed too. *)
Theorem output_filename_replaces_every_pdf :
  output_filename "pdfs/report.pdf" = "xlsxs/report.xlsx"
  /\ output_filename "pdfs/report.pdf" <> "pdfs/report.xlsx".
Proof. split; [reflexivity | vm_compute; discriminate]. Qed.

(* ================================================================= *)
(** ** Further properties: splitting *)

Lemma drop_app_length (a t : string) : drop (String.length a) (a ++ t) = t.
Proof. induction a as [|x a IH]; simpl; [now destruct t | exact IH]. Qed.

Lemma concat_cons_nonempty (sep x : string) (l : list string) :
  l <> [] -> String.concat sep (x :: l) = x ++ sep ++ String.concat sep l.
Proof. destruct l; [congruence | reflexivity]. Qed.

Lemma split_go_nonempty (sep s : string) (skip : nat) :
  split_go sep s skip <> [].
Proof.
  pose proof (split_go_length sep s skip) as H.
  destruct (split_go sep s skip); simpl in H; [lia | discriminate].
Qed.

Lemma concat_cons_head (sep : string) (c : ascii) (l : list string) :
  l <> [] ->
  String.concat sep (cons_head c l) = String c (String.concat sep l).
Proof.
  destruct l as [|h [|h' t]]; [congruence | reflexivity | reflexivity].
Qed.

(** The pieces after [skip] more characters, joined again, are the text
    after those characters. *)
Lemma concat_split_go (sep s : string) (skip : nat) :
  sep <> EmptyString ->
  String.concat sep (split_go sep s skip) = drop skip s.
Proof.
  intros Hsep. revert skip; induction s as [|c s IH]; intros skip.
  - destruct skip; reflexivity.
  - destruct skip as [|k]; cbn [split_go drop]; [|apply IH].
    destruct (startswith sep (String c s)) eqn:E.
    + rewrite concat_cons_nonempty by apply split_go_nonempty.
      rewrite IH. apply startswith_spec in E as [t Ht].
      destruct sep as [|a sep']; simpl in *.
      * congruence.
      * injection Ht as -> ->. now rewrite drop_app_length.
    + rewrite concat_cons_head by apply split_go_nonempty.
      now rewrite IH.
Qed.

(** X1: joining the pieces of a split with the (non-empty) separator
    gives the text back ([sep.join(s.split(sep)) == s]). *)
Theorem join_split (sep s : string) :
  sep <> EmptyString -> String.concat sep (split sep s) = s.
Proof. intros Hsep. unfold split. now rewrite concat_split_go. Qed.

Lemma join_split_witness :
  String.concat ("." ++ LF) (split ("." ++ LF) example_section)
  = example_section.
Proof. apply (join_split ("." ++ LF) example_section). discriminate. Defined.

(* ================================================================= *)
(** ** Further properties: the sentence classifier *)

Lemma colon_cases (sentence pre post : string) (rest : list string) :
  contains ":" sentence = true ->
  split ":" sentence = pre :: post :: rest ->
  get_list_of_industries_from_sentence sentence
  = if contains ";" post
    then Ok (map (fun industry =>
                    strip (replace LF " "
                             (replace " and " EmptyString industry)))
                 (split ";" post))
    else Ok [strip (replace LF " " post)].
Proof.
  intros Hc Hs. unfold get_list_of_industries_from_sentence.
  rewrite Hc, Hs, getitem_1. reflexivity.
Qed.

(** X2: the classifier never raises: the index [1] it takes after
    splitting on ":" is guarded by the test for a colon. *)
Theorem classifier_never_raises (sentence : string) (e : exn) :
  get_list_of_industries_from_sentence sentence <> Raise e.
Proof.
  destruct (classifier_total sentence) as [l Hl]. rewrite Hl. discriminate.
Qed.

(** X3: only the text between the first and the second colon is read;
    what follows a second colon does not change the result. *)
Theorem classifier_drops_after_second_colon (pre post tail : string) :
  contains ":" pre = false -> contains ":" post = false ->
  get_list_of_industries_from_sentence (pre ++ ":" ++ post ++ ":" ++ tail)
  = get_list_of_industries_from_sentence (pre ++ ":" ++ post).
Proof.
  intros Hpre Hpost.
  change (":" ++ post ++ ":" ++ tail) with (String ":" (post ++ String ":" tail)).
  change (":" ++ post) with (String ":" post).
  rewrite (colon_cases _ pre post (split ":" tail)).
  - rewrite (colon_cases _ pre post []); [reflexivity | |].
    + apply contains_first_char.
    + now rewrite (split_first_char _ _ _ Hpre), (split_absent _ _ Hpost).
  - apply contains_first_char.
  - now rewrite (split_first_char _ _ _ Hpre), (split_first_char _ _ _ Hpost).
Qed.

Lemma classifier_drops_after_second_colon_witness :
  get_list_of_industries_from_sentence
    ("grew" ++ ":" ++ " Machinery; and Paper Products" ++ ":" ++ " see note")
  = get_list_of_industries_from_sentence
      ("grew" ++ ":" ++ " Machinery; and Paper Products").
Proof.
  apply (classifier_drops_after_second_colon
           "grew" " Machinery; and Paper Products" " see note");
    reflexivity.
Defined.

(** X4: a sentence that ends with its only colon yields one name, the
    empty string. *)
Theorem classifier_empty_name (pre : string) :
  contains ":" pre = false ->
  get_list_of_industries_from_sentence (pre ++ ":") = Ok [EmptyString].
Proof.
  intros Hpre. change ":" with (String ":" EmptyString) at 1.
  rewrite (colon_cases _ pre EmptyString []).
  - reflexivity.
  - apply contains_first_char.
  - now rewrite (split_first_char _ _ _ Hpre).
Qed.

Lemma classifier_empty_name_witness :
  get_list_of_industries_from_sentence
    ("No industry reported growth" ++ ":") = Ok [EmptyString].
Proof.
  apply (classifier_empty_name "No industry reported growth"). reflexivity.
Defined.

Lemma lstrip_clean (s : string) : clean_head (lstrip s).
Proof.
  induction s as [|c s IH]; simpl; [exact I|].
  destruct (isspace c) eqn:E; [exact IH | exact E].
Qed.

Lemma rstrip_clean (s : string) : clean_head s -> clean_head (rstrip s).
Proof.
  destruct s as [|c s]; simpl; intros H; [exact I|].
  destruct (rstrip s); [rewrite H|]; exact H.
Qed.

Lemma lstrip_of_clean (s : string) : clean_head s -> lstrip s = s.
Proof. destruct s as [|c s]; simpl; intros H; [|rewrite H]; reflexivity. Qed.

Lemma rstrip_idem (s : string) : rstrip (rstrip s) = rstrip s.
Proof.
  induction s as [|c s IH]; simpl; [reflexivity|].
  destruct (rstrip s) as [|x r] eqn:R.
  - destruct (isspace c) eqn:E; simpl; [reflexivity | now rewrite E].
  - cbn [rstrip]. cbn [rstrip] in IH. now rewrite IH.
Qed.

Lemma strip_idem (s : string) : strip (strip s) = strip s.
Proof.
  unfold strip.
  rewrite (lstrip_of_clean (rstrip (lstrip s)))
    by apply rstrip_clean, lstrip_clean.
  apply rstrip_idem.
Qed.

Lemma contains_char_cons (a c : ascii) (s : string) :
  contains (String a EmptyString) (String c s)
  = Ascii.eqb a c || contains (String a EmptyString) s.
Proof. simpl. now rewrite andb_true_r. Qed.

Lemma lstrip_free (a : ascii) (s : string) :
  contains (String a EmptyString) s = false ->
  contains (String a EmptyString) (lstrip s) = false.
Proof.
  induction s as [|c s IH]; intros H; [exact H|].
  cbn [lstrip]. destruct (isspace c); [|exact H].
  apply IH. now apply contains_cons_false in H.
Qed.

Lemma rstrip_free (a : ascii) (s : string) :
  contains (String a EmptyString) s = false ->
  contains (String a EmptyString) (rstrip s) = false.
Proof.
  induction s as [|c s IH]; intros H; [exact H|].
  rewrite contains_char_cons in H. apply orb_false_iff in H as [Hc Hs].
  specialize (IH Hs). cbn [rstrip]. destruct (rstrip s) as [|x r].
  - destruct (isspace c); [reflexivity|].
    rewrite contains_char_cons, Hc. reflexivity.
  - now rewrite contains_char_cons, Hc, IH.
Qed.

Lemma replace_LF_free (s : string) : contains LF (replace LF " " s) = false.
Proof.
  unfold replace, LF. induction s as [|c s IH]; [reflexivity|].
  cbn [replace_go startswith String.length Nat.pred].
  rewrite andb_true_r. destruct (Ascii.eqb (ascii_of_nat 10) c) eqn:E.
  - cbn [append]. now rewrite contains_char_cons, IH.
  - now rewrite contains_char_cons, E, IH.
Qed.

Lemma normal_name (s : string) :
  strip (strip (replace LF " " s)) = strip (replace LF " " s)
  /\ contains LF (strip (replace LF " " s)) = false.
Proof.
  split; [apply strip_idem|].
  unfold strip, LF. apply rstrip_free, lstrip_free, replace_LF_free.
Qed.

(** X5: with a colon in the sentence the classifier returns at least one
    name, and every name it returns has no line feed left in it and no
    white space at either end (stripping it again changes nothing). *)
Theorem colon_names_are_normal (sentence : string) :
  contains ":" sentence = true ->
  exists l,
    get_list_of_industries_from_sentence sentence = Ok l
    /\ l <> []
    /\ forall name, In name l ->
         strip name = name /\ contains LF name = false.
Proof.
  intros H. destruct (post_colon_defined _ H) as [pre [post [rest [Hs _]]]].
  rewrite (colon_cases _ _ _ _ H Hs). destruct (contains ";" post).
  - eexists. split; [reflexivity|]. split.
    + intros Hnil. apply map_eq_nil in Hnil.
      now apply (split_go_nonempty ";" post 0).
    + intros name Hin. apply in_map_iff in Hin as [seg [<- _]].
      apply normal_name.
  - eexists. split; [reflexivity|]. split; [discriminate|].
    intros name [<-|[]]. apply normal_name.
Qed.

Lemma colon_names_are_normal_witness :
  exists l,
    get_list_of_industries_from_sentence
      ("grew:  Paper" ++ LF ++ "Products ; and Machinery" ++ LF) = Ok l
    /\ l <> []
    /\ forall name, In name l ->
         strip name = name /\ contains LF name = false.
Proof.
  apply (colon_names_are_normal
           ("grew:  Paper" ++ LF ++ "Products ; and Machinery" ++ LF)).
  reflexivity.
Defined.

(* ================================================================= *)
(** ** Further properties: the rank assignment *)

Lemma create_dict_lookup (g n dl : list string) (k : string) :
  (In k dl ->
   exists r, od_get (create_dict_of_industries g n dl) k = Some r
             /\ - Z.of_nat (List.length dl) <= r <= -1)
  /\ (~ In k dl -> In k n ->
      od_get (create_dict_of_industries g n dl) k = Some 0)
  /\ (~ In k dl -> ~ In k n -> In k g ->
      exists r, od_get (create_dict_of_industries g n dl) k = Some r
                /\ 1 <= r <= Z.of_nat (List.length g))
  /\ (~ In k dl -> ~ In k n -> ~ In k g ->
      od_get (create_dict_of_industries g n dl) k = None).
Proof.
  rewrite create_dict_unfold. repeat split.
  - intros Kd.
    destruct (rank_loop_get_range dl
                (fold_left neutral_step n
                   (fst (fold_left rank_step g
                           (([] : OrderedDict Z),
                            Z.of_nat (List.length g))))) (-1) k Kd)
      as [r [Hr Hb]].
    exists r. split; [exact Hr | lia].
  - intros Kd Kn. rewrite rank_loop_get_other by exact Kd.
    now apply neutral_loop_get.
  - intros Kd Kn Kg. rewrite rank_loop_get_other by exact Kd.
    rewrite neutral_loop_get_other by exact Kn.
    destruct (rank_loop_get_range g [] (Z.of_nat (List.length g)) k Kg)
      as [r [Hr Hb]].
    exists r. split; [exact Hr | lia].
  - intros Kd Kn Kg. rewrite rank_loop_get_other by exact Kd.
    rewrite neutral_loop_get_other by exact Kn.
    now rewrite rank_loop_get_other by exact Kg.
Qed.

(** X6: the three loops write into one dictionary, so the later loop
    wins: a name of the decline list ends between [-len(decline)] and
    [-1] whatever else it is in; otherwise a name of the neutral list ends
    at 0; otherwise a name of the growth list ends between 1 and
    [len(growth)]; any other name is not a key. *)
Theorem later_loop_wins (g n dl : list string) (k : string) :
  (In k dl ->
   exists r, od_get (create_dict_of_industries g n dl) k = Some r
             /\ - Z.of_nat (List.length dl) <= r <= -1)
  /\ (~ In k dl -> In k n ->
      od_get (create_dict_of_industries g n dl) k = Some 0)
  /\ (~ In k dl -> ~ In k n -> In k g ->
      exists r, od_get (create_dict_of_industries g n dl) k = Some r
                /\ 1 <= r <= Z.of_nat (List.length g))
  /\ (~ In k dl -> ~ In k n -> ~ In k g ->
      od_get (create_dict_of_industries g n dl) k = None).
Proof. apply create_dict_lookup. Qed.

Lemma later_loop_wins_witness :
  (exists r,
     od_get (create_dict_of_industries
               ["Machinery"; "Paper Products"] ["Machinery"]
               ["Wood Products"; "Machinery"]) "Machinery" = Some r
     /\ - Z.of_nat (List.length ["Wood Products"; "Machinery"]) <= r <= -1)
  /\ (exists r,
        od_get (create_dict_of_industries
                  ["Machinery"; "Paper Products"] ["Machinery"]
                  ["Wood Products"; "Machinery"]) "Paper Products" = Some r
        /\ 1 <= r <= Z.of_nat (List.length ["Machinery"; "Paper Products"])).
Proof.
  destruct (later_loop_wins ["Machinery"; "Paper Products"] ["Machinery"]
              ["Wood Products"; "Machinery"] "Machinery") as [H1 _].
  destruct (later_loop_wins ["Machinery"; "Paper Products"] ["Machinery"]
              ["Wood Products"; "Machinery"] "Paper Products")
    as [_ [_ [H3 _]]].
  split.
  - apply H1. simpl. tauto.
  - apply H3; simpl; intuition discriminate.
Defined.

(** X7: the returned dictionary never has more entries than the three
    lists have names together, and its keys are pairwise distinct. *)
Theorem create_dict_size (g n dl : list string) :
  NoDup (od_keys (create_dict_of_industries g n dl))
  /\ (List.length (create_dict_of_industries g n dl)
      <= List.length g + List.length n + List.length dl)%nat.
Proof.
  split; [apply create_dict_NoDup|].
  rewrite <- (length_map fst). fold (od_keys (create_dict_of_industries g n dl)).
  rewrite <- !length_app, <- app_assoc.
  apply NoDup_incl_length; [apply create_dict_NoDup|].
  intros k Hk. apply create_dict_keys in Hk. rewrite !in_app_iff. tauto.
Qed.

Lemma create_dict_distinct (g n dl : list string) :
  NoDup g -> NoDup n -> NoDup dl ->
  (forall k, In k g -> ~ In k n /\ ~ In k dl) ->
  (forall k, In k n -> ~ In k dl) ->
  od_keys (create_dict_of_industries g n dl) = (g ++ n ++ dl)%list
  /\ (forall i, (i < List.length g)%nat ->
        od_get (create_dict_of_industries g n dl) (nth i g EmptyString)
        = Some (Z.of_nat (List.length g) - Z.of_nat i))
  /\ (forall k, In k n ->
        od_get (create_dict_of_industries g n dl) k = Some 0)
  /\ (forall i, (i < List.length dl)%nat ->
        od_get (create_dict_of_industries g n dl) (nth i dl EmptyString)
        = Some (-1 - Z.of_nat i)).
Proof.
  intros Hg Hn Hdl Dg Dn. rewrite create_dict_unfold.
  assert (Hgn : NoDup (g ++ n)).
  { apply NoDup_app; try assumption. intros k Hk. now apply Dg. }
  assert (Hall : NoDup ((g ++ n) ++ dl)).
  { apply NoDup_app; try assumption. intros k Hk.
    apply in_app_or in Hk as [Hk|Hk]; [now apply Dg | now apply Dn]. }
  set (d1 := fst (fold_left rank_step g
                    (([] : OrderedDict Z), Z.of_nat (List.length g)))).
  assert (K1 : od_keys d1 = g).
  { unfold d1. now rewrite rank_loop_keys_fresh. }
  assert (K2 : od_keys (fold_left neutral_step n d1) = (g ++ n)%list).
  { rewrite neutral_loop_keys_fresh; now rewrite K1. }
  split; [|split; [|split]].
  - rewrite rank_loop_keys_fresh; rewrite K2; [now rewrite <- app_assoc|].
    exact Hall.
  - intros i Hi.
    assert (Hin : In (nth i g EmptyString) g) by (now apply nth_In).
    rewrite rank_loop_get_other by (now apply Dg).
    rewrite neutral_loop_get_other by (now apply Dg).
    unfold d1. now apply rank_loop_get_nth.
  - intros k Hk. rewrite rank_loop_get_other by (now apply Dn).
    now apply neutral_loop_get.
  - intros i Hi. now apply rank_loop_get_nth.
Qed.

(* ================================================================= *)
(** ** Further properties: the paragraph processor *)

Lemma process_paragraph_pieces (p s0 s1 : string) (rest : list string) :
  split "." p = s0 :: s1 :: rest ->
  process_paragraph p
  = (g <- get_list_of_industries_from_sentence s0 ;;
     dl <- get_list_of_industries_from_sentence s1 ;;
     Ok (create_dict_of_industries g (neutral_industries g dl) dl)).
Proof.
  intros Hs. unfold process_paragraph. now rewrite Hs, getitem_0, getitem_1.
Qed.

(** X8: only the text before the second period is read; what follows it
    does not change the result. *)
Theorem paragraph_drops_after_second_period (s0 s1 tail : string) :
  contains "." s0 = false -> contains "." s1 = false ->
  process_paragraph (s0 ++ "." ++ s1 ++ "." ++ tail)
  = process_paragraph (s0 ++ "." ++ s1).
Proof.
  intros H0 H1.
  change ("." ++ s1 ++ "." ++ tail) with (String "." (s1 ++ String "." tail)).
  change ("." ++ s1) with (String "." s1).
  rewrite (process_paragraph_pieces _ s0 s1 (split "." tail)).
  - rewrite (process_paragraph_pieces _ s0 s1 []); [reflexivity|].
    now rewrite (split_first_char _ _ _ H0), (split_absent _ _ H1).
  - now rewrite (split_first_char _ _ _ H0), (split_first_char _ _ _ H1).
Qed.

Lemma paragraph_drops_after_second_period_witness :
  process_paragraph
    ("grew: Machinery" ++ "." ++ " fell: Paper Products" ++ "."
     ++ " Wood Products grew too.")
  = process_paragraph ("grew: Machinery" ++ "." ++ " fell: Paper Products").
Proof.
  apply (paragraph_drops_after_second_period
           "grew: Machinery" " fell: Paper Products"
           " Wood Products grew too."); reflexivity.
Defined.

Lemma neutral_industries_NoDup (g dl : list string) :
  NoDup (neutral_industries g dl).
Proof. apply NoDup_filter, LIST_OF_INDUSTRIES_NoDup. Qed.

(** X9: when the two extracted lists have no repeated name and no name in
    common, the dictionary lists the growth names, then the remaining
    fixed industries in reference order, then the decline names; the
    [i]-th growth name has rank [len(growth) - i], each remaining fixed
    industry rank 0 and the [i]-th decline name rank [-1 - i]. *)
Theorem well_formed_paragraph (p s0 s1 : string) (rest g dl : list string) :
  split "." p = s0 :: s1 :: rest ->
  get_list_of_industries_from_sentence s0 = Ok g ->
  get_list_of_industries_from_sentence s1 = Ok dl ->
  NoDup g -> NoDup dl -> (forall k, In k g -> ~ In k dl) ->
  exists d,
    process_paragraph p = Ok d
    /\ od_keys d
       = (g ++ filter (fun industry =>
                         negb (list_in industry g)
                         && negb (list_in industry dl)) LIST_OF_INDUSTRIES
            ++ dl)%list
    /\ (forall i, (i < List.length g)%nat ->
          od_get d (nth i g EmptyString)
          = Some (Z.of_nat (List.length g) - Z.of_nat i))
    /\ (forall k, In k LIST_OF_INDUSTRIES -> ~ In k g -> ~ In k dl ->
          od_get d k = Some 0)
    /\ (forall i, (i < List.length dl)%nat ->
          od_get d (nth i dl EmptyString) = Some (-1 - Z.of_nat i)).
Proof.
  intros Hs Hg Hd Ng Nd Dis. eexists.
  split; [exact (process_paragraph_ok p s0 s1 rest g dl Hs Hg Hd)|].
  destruct (create_dict_distinct g (neutral_industries g dl) dl)
    as [Hk [Hgr [Hne Hde]]]; try assumption.
  - apply neutral_industries_NoDup.
  - intros k Hk. split; [|now apply Dis].
    rewrite neutral_industries_spec. tauto.
  - intros k Hk. apply neutral_industries_spec in Hk. tauto.
  - split; [exact Hk|]. split; [exact Hgr|]. split; [|exact Hde].
    intros k Hl Kg Kd. apply Hne. now apply neutral_industries_spec.
Qed.

Lemma well_formed_paragraph_witness :
  exists d,
    process_paragraph
      "reported growth: Textile Mills; Primary Metals. reported decrease: Machinery."
    = Ok d
    /\ od_get d "Textile Mills" = Some 2
    /\ od_get d "Wood Products" = Some 0
    /\ od_get d "Machinery" = Some (-1).
Proof.
  assert (Ng : NoDup ["Textile Mills"; "Primary Metals"]).
  { replace ["Textile Mills"; "Primary Metals"]
      with (nodup string_dec ["Textile Mills"; "Primary Metals"])
      by (vm_compute; reflexivity).
    apply NoDup_nodup. }
  assert (Nd : NoDup ["Machinery"]).
  { constructor; [intros [] | constructor]. }
  assert (Dis : forall k, In k ["Textile Mills"; "Primary Metals"]
                          -> ~ In k ["Machinery"]).
  { intros k [<-|[<-|[]]] [E|[]]; discriminate. }
  destruct (well_formed_paragraph
              "reported growth: Textile Mills; Primary Metals. reported decrease: Machinery."
              "reported growth: Textile Mills; Primary Metals"
              " reported decrease: Machinery" [EmptyString]
              ["Textile Mills"; "Primary Metals"] ["Machinery"]
              eq_refl eq_refl eq_refl Ng Nd Dis)
    as [d [Hp [_ [Hgr [Hne Hde]]]]].
  exists d. split; [exact Hp|]. split; [|split].
  - apply (Hgr 0%nat). simpl. lia.
  - apply Hne.
    + apply list_in_spec. reflexivity.
    + intros [E|[E|[]]]; discriminate.
    + intros [E|[]]; discriminate.
  - apply (Hde 0%nat). simpl. lia.
Defined.

(** X10: the dictionary of a paragraph has at least 18 entries and at most
    18 plus one per extracted name. *)
Theorem paragraph_size (p s0 s1 : string) (rest g dl : list string) :
  split "." p = s0 :: s1 :: rest ->
  get_list_of_industries_from_sentence s0 = Ok g ->
  get_list_of_industries_from_sentence s1 = Ok dl ->
  exists d,
    process_paragraph p = Ok d
    /\ (18 <= List.length d <= 18 + List.length g + List.length dl)%nat.
Proof.
  intros Hs Hg Hd. eexists.
  split; [exact (process_paragraph_ok p s0 s1 rest g dl Hs Hg Hd)|].
  rewrite <- (length_map fst).
  fold (od_keys (create_dict_of_industries g (neutral_industries g dl) dl)).
  split.
  - change 18%nat with (List.length LIST_OF_INDUSTRIES).
    apply NoDup_incl_length; [apply LIST_OF_INDUSTRIES_NoDup|].
    intros k Hk. apply report_keys_spec. now left.
  - change 18%nat with (List.length LIST_OF_INDUSTRIES).
    rewrite <- !length_app, <- app_assoc.
    apply NoDup_incl_length; [apply create_dict_NoDup|].
    intros k Hk. apply report_keys_spec in Hk. rewrite !in_app_iff. tauto.
Qed.

Lemma paragraph_size_witness :
  exists d,
    process_paragraph
      "grew: Machinery; and Plastics Products. fell: Machinery." = Ok d
    /\ (18 <= List.length d
        <= 18 + List.length ["Machinery"; "Plastics Products"]
           + List.length ["Machinery"])%nat.
Proof.
  apply (paragraph_size
           "grew: Machinery; and Plastics Products. fell: Machinery."
           "grew: Machinery; and Plastics Products" " fell: Machinery"
           [EmptyString]); reflexivity.
Defined.

(* ================================================================= *)
(** ** Further properties: the report segmenter *)

Lemma startswith_length (l x : string) :
  startswith l x = true -> (String.length l <= String.length x)%nat.
Proof.
  revert x; induction l as [|a l IH]; intros x H; simpl; [lia|].
  destruct x as [|b x]; [discriminate|]. simpl in H.
  apply andb_true_iff in H as [_ H]. apply IH in H. simpl. lia.
Qed.

Lemma startswith_app_long (l x u : string) :
  (String.length l <= String.length x)%nat ->
  startswith l (x ++ u) = startswith l x.
Proof.
  revert x; induction l as [|a l IH]; intros x H; [reflexivity|].
  destruct x as [|b x]; simpl in H; [lia|].
  simpl. rewrite IH by lia. reflexivity.
Qed.

Lemma after_first_length (l x r : string) :
  after_first l x = Some r -> (String.length l <= String.length x)%nat.
Proof.
  induction x as [|c x IH]; cbn [after_first]; intros H.
  - destruct (startswith l EmptyString) eqn:E; [|discriminate].
    now apply startswith_length.
  - destruct (startswith l (String c x)) eqn:E.
    + now apply startswith_length.
    + apply IH in H. simpl. lia.
Qed.

Lemma drop_app (n : nat) (x u : string) :
  (n <= String.length x)%nat -> drop n (x ++ u) = drop n x ++ u.
Proof.
  revert x; induction n as [|n IH]; intros x H; [reflexivity|].
  destruct x as [|c x]; simpl in H; [lia|]. simpl. apply IH. lia.
Qed.

(** The first occurrence stays the first when text is added at the end. *)
Lemma after_first_app (l x u r : string) :
  after_first l x = Some r -> after_first l (x ++ u) = Some (r ++ u).
Proof.
  revert r; induction x as [|c x IH]; intros r H.
  - cbn [after_first] in H.
    destruct (startswith l EmptyString) eqn:E; [|discriminate].
    destruct l; [|discriminate]. injection H as <-. simpl.
    destruct u; reflexivity.
  - pose proof (after_first_length _ _ _ H) as Hlen.
    cbn [after_first] in H. cbn [append after_first].
    change (String c (x ++ u)) with (String c x ++ u).
    rewrite startswith_app_long by exact Hlen.
    destruct (startswith l (String c x)) eqn:E.
    + injection H as <-. now rewrite drop_app.
    + now apply IH.
Qed.

Lemma labels_in_order_app (labels : list string) (x u : string) :
  labels_in_order labels x = true -> labels_in_order labels (x ++ u) = true.
Proof.
  revert x; induction labels as [|l labels IH]; intros x H; [reflexivity|].
  cbn [labels_in_order] in *. destruct (after_first l x) as [r|] eqn:E;
    [|discriminate].
  rewrite (after_first_app _ _ u _ E). now apply IH.
Qed.

Lemma split_go_skip (sep s : string) (k : nat) :
  split_go sep s k = split_go sep (drop k s) 0.
Proof.
  revert k; induction s as [|c s IH]; intros k.
  - destruct k; reflexivity.
  - destruct k as [|k]; [reflexivity|]. cbn [split_go drop]. apply IH.
Qed.

(** Where the separator occurs, the first piece ends at its first
    occurrence and the other pieces are those of the text after it. *)
Lemma split_at_first (sep s : string) :
  sep <> EmptyString -> contains sep s = true ->
  exists pre rest,
    after_first sep s = Some rest /\ split sep s = pre :: split sep rest.
Proof.
  intros Hsep. unfold split. induction s as [|c s IH]; intros H.
  - simpl in H. destruct sep; [congruence | discriminate].
  - cbn [after_first split_go]. simpl in H.
    destruct (startswith sep (String c s)) eqn:E.
    + exists EmptyString, (drop (String.length sep) (String c s)).
      split; [reflexivity|]. f_equal.
      destruct sep as [|a sep']; [congruence|].
      cbn [String.length Nat.pred drop]. apply split_go_skip.
    + simpl in H. destruct (IH H) as [pre [rest [Ha Hs]]].
      exists (String c pre), rest. split; [exact Ha|]. now rewrite Hs.
Qed.

Lemma split_head_prefix (sep s h : string) (t : list string) :
  split sep s = h :: t -> exists u, s = h ++ u.
Proof.
  unfold split. revert h t; induction s as [|c s IH]; intros h t H.
  - injection H as <- _. now exists EmptyString.
  - cbn [split_go] in H. destruct (startswith sep (String c s)).
    + injection H as <- _. now exists (String c s).
    + destruct (split_go sep s 0) as [|h' t'] eqn:E.
      * now apply split_go_nonempty in E.
      * injection H as <- _. destruct (IH h' t' eq_refl) as [u ->].
        now exists u.
Qed.

Lemma getitem_1_Ok {A : Type} (l : list A) (x : A) :
  getitem l 1 = Ok x -> exists a t, l = a :: x :: t.
Proof.
  destruct l as [|a [|b t]]; intros H.
  - discriminate.
  - discriminate.
  - rewrite getitem_1 in H. injection H as <-. now exists a, t.
Qed.

Lemma getitem_nat_Ok {A : Type} (l : list A) (i : nat) (x d : A) :
  getitem l (Z.of_nat i) = Ok x -> nth i l d = x /\ In x l.
Proof.
  unfold getitem. destruct (Z.ltb_spec (Z.of_nat i) 0); [lia|].
  destruct (_ || _); [discriminate|]. rewrite Nat2Z.id.
  destruct (nth_error l i) as [y|] eqn:E; [|discriminate].
  intros [= <-]. split; [now apply nth_error_nth | now apply nth_error_In in E].
Qed.

Lemma label_not_empty (label : string) :
  In label LIST_OF_INDICATORS -> label <> EmptyString.
Proof. simpl. intuition (subst; discriminate). Qed.

(** A pass that does not raise leaves in [previous_text] the pieces of
    the second piece it found there, split on the label of the pass. *)
Lemma segment_step_text (st st' : list string * OrderedDict (OrderedDict Z))
  (i : nat) :
  segment_step st i = Ok st' ->
  exists remaining,
    getitem (fst st) 1 = Ok remaining
    /\ In (nth i LIST_OF_INDICATORS EmptyString) LIST_OF_INDICATORS
    /\ fst st' = split (nth i LIST_OF_INDICATORS EmptyString) remaining.
Proof.
  destruct st as [previous_text industries_dict]. unfold segment_step.
  intros H.
  apply bind_Ok in H as [remaining [Hr H]].
  apply bind_Ok in H as [label [Hl H]].
  apply bind_Ok in H as [verbose [_ H]].
  apply bind_Ok in H as [paragraph [_ H]].
  apply bind_Ok in H as [processed_paragraph [_ H]].
  apply bind_Ok in H as [key [_ H]].
  injection H as <-. exists remaining. split; [exact Hr|].
  apply (getitem_nat_Ok _ _ _ EmptyString) in Hl as [-> Hin]. now split.
Qed.

(** The second piece of a split holds the text right after the first
    occurrence of the separator, up to the next one. *)
Lemma second_piece (sep s piece : string) :
  sep <> EmptyString -> getitem (split sep s) 1 = Ok piece ->
  exists rest u, after_first sep s = Some rest /\ rest = piece ++ u.
Proof.
  intros Hsep H. destruct (contains sep s) eqn:E.
  - destruct (split_at_first sep s Hsep E) as [pre [rest [Ha Hs]]].
    rewrite Hs in H. apply getitem_1_Ok in H as [a [t Ht]].
    injection Ht as _ Ht. destruct (split_head_prefix _ _ _ _ Ht) as [u Hu].
    now exists rest, u.
  - rewrite (split_absent _ _ E) in H. discriminate.
Qed.

Lemma segment_loop_labels (indices : list nat)
  (st st' : list string * OrderedDict (OrderedDict Z)) :
  segment_loop indices st = Ok st' -> indices <> [] ->
  exists remaining,
    getitem (fst st) 1 = Ok remaining
    /\ labels_in_order (labels_at (removelast indices)) remaining = true.
Proof.
  revert st; induction indices as [|i indices IH]; intros st H Hne;
    [congruence|].
  cbn [segment_loop] in H. apply bind_Ok in H as [st1 [H1 H]].
  destruct (segment_step_text _ _ _ H1) as [remaining [Hr [Hin Hs]]].
  exists remaining. split; [exact Hr|].
  destruct indices as [|j indices]; [reflexivity|].
  destruct (IH st1 H) as [remaining1 [Hr1 Hl1]]; [discriminate|].
  rewrite Hs in Hr1.
  destruct (second_piece _ _ _ (label_not_empty _ Hin) Hr1)
    as [rest [u [Ha ->]]].
  change (removelast (i :: j :: indices)) with (i :: removelast (j :: indices)).
  cbn [labels_at map labels_in_order]. rewrite Ha.
  now apply labels_in_order_app.
Qed.

Lemma segment_report_labels (text : string)
  (report : OrderedDict (OrderedDict Z)) :
  segment_report text = Ok report ->
  labels_in_order (removelast LIST_OF_INDICATORS) text = true.
Proof.
  unfold segment_report. intros H.
  apply bind_Ok in H as [label0 [H0 H]].
  apply bind_Ok in H as [st [Hloop _]].
  change 0 with (Z.of_nat 0) in H0.
  apply (getitem_nat_Ok _ _ _ EmptyString) in H0 as [<- Hin].
  apply segment_loop_labels in Hloop as [remaining [Hr Hl]];
    [|discriminate].
  cbn [fst] in Hr.
  destruct (second_piece _ _ _ (label_not_empty _ Hin) Hr)
    as [rest [u [Ha ->]]].
  change (removelast LIST_OF_INDICATORS)
    with (nth 0 LIST_OF_INDICATORS EmptyString
          :: labels_at (removelast (range 1 (List.length LIST_OF_INDICATORS)))).
  cbn [labels_in_order]. rewrite Ha. now apply labels_in_order_app.
Qed.

(** X11: the segmenter raises [IndexError] on every text in which the
    first ten labels do not occur one after the other (each after the
    first occurrence of the one before). *)
Theorem segmenter_needs_the_labels (text : string) :
  labels_in_order (removelast LIST_OF_INDICATORS) text = false ->
  segment_report text = Raise IndexError.
Proof.
  intros H. destruct (segment_report text) as [report|e] eqn:E.
  - apply segment_report_labels in E. congruence.
  - now destruct e.
Qed.

Lemma segmenter_needs_the_labels_witness :
  segment_report
    ("NEW ORDERS" ++ example_section ++ "EMPLOYMENT" ++ example_section)
  = Raise IndexError.
Proof.
  apply (segmenter_needs_the_labels
           ("NEW ORDERS" ++ example_section
            ++ "EMPLOYMENT" ++ example_section)).
  vm_compute. reflexivity.
Defined.

(** X12: every indicator report of a report the segmenter returns has
    pairwise distinct keys, and each of the 18 fixed industries among
    them. *)
Theorem segmenter_reports_are_complete (text : string)
  (report : OrderedDict (OrderedDict Z)) :
  segment_report text = Ok report ->
  forall indicator indicator_report,
    In (indicator, indicator_report) report ->
    NoDup (od_keys indicator_report)
    /\ incl LIST_OF_INDUSTRIES (od_keys indicator_report)
    /\ (18 <= List.length indicator_report)%nat.
Proof.
  unfold segment_report. intros H indicator rep Hin.
  apply bind_Ok in H as [label0 [_ H]].
  apply bind_Ok in H as [st [Hloop H]]. injection H as <-.
  apply segment_loop_Ok in Hloop as [_ Hv].
  destruct (Hv (fun k v (F : In (k, v) []) => match F with end)
               indicator rep Hin) as [paragraph Hp].
  apply process_paragraph_inv in Hp
    as [s0 [s1 [rest [g [dl [_ [_ [_ ->]]]]]]]].
  assert (Hincl : incl LIST_OF_INDUSTRIES
                    (od_keys (create_dict_of_industries g
                                (neutral_industries g dl) dl))).
  { intros k Hk. apply report_keys_spec. now left. }
  split; [apply create_dict_NoDup|]. split; [exact Hincl|].
  rewrite <- (length_map fst).
  change 18%nat with (List.length LIST_OF_INDUSTRIES).
  apply NoDup_incl_length; [apply LIST_OF_INDUSTRIES_NoDup | exact Hincl].
Qed.

Lemma segmenter_reports_are_complete_witness :
  exists report,
    segment_report example_document = Ok report
    /\ forall indicator indicator_report,
         In (indicator, indicator_report) report ->
         NoDup (od_keys indicator_report)
         /\ incl LIST_OF_INDUSTRIES (od_keys indicator_report)
         /\ (18 <= List.length indicator_report)%nat.
Proof.
  eexists. split; [vm_compute; reflexivity|].
  apply (segmenter_reports_are_complete example_document).
  vm_compute. reflexivity.
Defined.

(* ================================================================= *)
(** ** Further properties: the exporter *)

Lemma write_rows_loop (value : OrderedDict Z) (writes : list cell_write)
  (row : Z) :
  fold_left (write_row 0) value (writes, row)
  = ((writes ++ rows_from row value)%list,
     row + Z.of_nat (List.length value)).
Proof.
  revert writes row; induction value as [|[industry index] value IH];
    intros writes row.
  - simpl. now rewrite app_nil_r, Z.add_0_r.
  - cbn [fold_left write_row]. rewrite IH. cbn [rows_from List.length].
    rewrite <- app_assoc. f_equal. lia.
Qed.

Lemma export_sheet_rows (value : OrderedDict Z) :
  export_sheet value = rows_from 0 value.
Proof. unfold export_sheet. now rewrite write_rows_loop. Qed.

Lemma rows_from_In (value : OrderedDict Z) (row r c : Z) (v : cell) :
  In (r, c, v) (rows_from row value)
  <-> exists i item,
        nth_error value i = Some item
        /\ r = row + Z.of_nat i
        /\ In (r, c, v) (row_cells r item).
Proof.
  revert row; induction value as [|item value IH]; intros row.
  - split; [intros [] | intros [[|i] [item [H _]]]; discriminate].
  - cbn [rows_from]. rewrite in_app_iff, IH. split.
    + intros [H|[i [it [Hn [Hr Hc]]]]].
      * exists 0%nat, item.
        assert (r = row).
        { unfold row_cells in H. simpl in H.
          destruct H as [H|[H|[H|[]]]]; congruence. }
        subst r. split; [reflexivity|]. split; [lia | exact H].
      * exists (S i), it. split; [exact Hn|]. split; [lia | exact Hc].
    + intros [[|i] [it [Hn [Hr Hc]]]].
      * left. injection Hn as <-. replace row with r by lia. exact Hc.
      * right. exists i, it. split; [exact Hn|]. split; [lia | exact Hc].
Qed.

Lemma rows_from_length (value : OrderedDict Z) (row : Z) :
  List.length (rows_from row value) = (3 * List.length value)%nat.
Proof.
  revert row; induction value as [|item value IH]; intros row;
    [reflexivity|].
  cbn [rows_from]. rewrite length_app, IH. simpl. lia.
Qed.

(** X13: a sheet gets three cells per entry of the indicator report and
    nothing else: the entry at position [i] fills row [i] with the name
    in column 0, the state label in column 1 and the rank in column 2; no
    cell is written twice with different contents. *)
Theorem sheet_layout (value : OrderedDict Z) :
  List.length (export_sheet value) = (3 * List.length value)%nat
  /\ (forall r c v,
        In (r, c, v) (export_sheet value)
        <-> exists i industry index,
              nth_error value i = Some (industry, index)
              /\ r = Z.of_nat i
              /\ (c = 0 /\ v = CellStr industry
                  \/ c = 1 /\ v = CellStr (state_of_index index)
                  \/ c = 2 /\ v = CellInt index))
  /\ (forall r c v v',
        In (r, c, v) (export_sheet value) ->
        In (r, c, v') (export_sheet value) -> v = v').
Proof.
  rewrite export_sheet_rows.
  assert (Hin : forall r c v,
             In (r, c, v) (rows_from 0 value)
             <-> exists i industry index,
                   nth_error value i = Some (industry, index)
                   /\ r = Z.of_nat i
                   /\ (c = 0 /\ v = CellStr industry
                       \/ c = 1 /\ v = CellStr (state_of_index index)
                       \/ c = 2 /\ v = CellInt index)).
  { intros r c v. rewrite rows_from_In. split.
    - intros [i [[industry index] [Hn [Hr Hc]]]].
      exists i, industry, index. split; [exact Hn|]. split; [lia|].
      unfold row_cells in Hc. simpl in Hc.
      destruct Hc as [Hc|[Hc|[Hc|[]]]]; injection Hc as <- <-; simpl; tauto.
    - intros [i [industry [index [Hn [Hr Hc]]]]].
      exists i, (industry, index). split; [exact Hn|]. split; [lia|].
      unfold row_cells. simpl.
      destruct Hc as [[-> ->]|[[-> ->]|[-> ->]]]; tauto. }
  split; [apply rows_from_length|]. split; [exact Hin|].
  intros r c v v' H H'.
  apply Hin in H as [i [industry [index [Hn [Hr Hc]]]]].
  apply Hin in H' as [i' [industry' [index' [Hn' [Hr' Hc']]]]].
  assert (i' = i) by lia. subst i'. rewrite Hn in Hn'.
  injection Hn' as <- <-.
  destruct Hc as [[-> ->]|[[-> ->]|[-> ->]]];
    destruct Hc' as [[E ->]|[[E ->]|[E ->]]];
    try reflexivity; discriminate.
Qed.




Lemma add_sheets_loop (industries_dict : OrderedDict (OrderedDict Z))
  (sheets : list worksheet) :
  fold_left add_sheet industries_dict sheets
  = (sheets ++ map (fun item => (fst item, export_sheet (snd item)))
                 industries_dict)%list.
Proof.
  revert sheets; induction industries_dict as [|[indicator value] d IH];
    intros sheets.
  - simpl. now rewrite app_nil_r.
  - cbn [fold_left add_sheet]. rewrite IH. cbn [map fst snd].
    now rewrite <- app_assoc.
Qed.

Lemma sheet_names (industries_dict : OrderedDict (OrderedDict Z)) :
  map fst (map (fun item => (fst item, export_sheet (snd item)))
             industries_dict)
  = od_keys industries_dict.
Proof.
  unfold od_keys. induction industries_dict as [|item d IH];
    [reflexivity|]. simpl. now rewrite IH.
Qed.

(* ================================================================= *)
(** ** Further properties: the main program *)

(** X15: when a run generates a workbook, the input file existed, the
    workbook is created under [filename.replace("pdf", "xlsx")], its
    sheets are named after the first ten indicators in the fixed order,
    and each sheet holds the cells of the report of one paragraph, which
    has at least 18 rows. *)
Theorem main_generates (file_exists : string -> bool)
  (extract_text : string -> string) (filename : string) (wb : workbook) :
  main file_exists extract_text filename = Generated wb ->
  file_exists filename = true
  /\ wb_filename wb = replace "pdf" "xlsx" filename
  /\ map fst (wb_sheets wb) = removelast LIST_OF_INDICATORS
  /\ forall name cells,
       In (name, cells) (wb_sheets wb) ->
       exists paragraph indicator_report,
         process_paragraph paragraph = Ok indicator_report
         /\ cells = export_sheet indicator_report
         /\ (3 * 18 <= List.length cells)%nat.
Proof.
  unfold main. destruct (file_exists filename); [|discriminate].
  cbn [negb]. destruct (segment_report (extract_text filename))
    as [report|e] eqn:E; [|discriminate].
  intros [= <-]. split; [reflexivity|]. split; [reflexivity|].
  cbn [export_dict_to_excel wb_sheets]. rewrite add_sheets_loop.
  cbn [app]. split.
  - rewrite sheet_names.
    pose proof E as E'. unfold segment_report in E'.
    apply bind_Ok in E' as [label0 [_ E']].
    apply bind_Ok in E' as [st [Hloop E']]. injection E' as <-.
    apply segment_loop_Ok in Hloop as [Hk _].
    rewrite Hk. vm_compute. reflexivity.
  - intros name cells Hin. apply in_map_iff in Hin as [[k rep] [Heq Hin]].
    injection Heq as <- <-.
    pose proof E as E'. unfold segment_report in E'.
    apply bind_Ok in E' as [label0 [_ E']].
    apply bind_Ok in E' as [st [Hloop E']]. injection E' as <-.
    apply segment_loop_Ok in Hloop as [_ Hv].
    destruct (Hv (fun k v (F : In (k, v) []) => match F with end)
                 k rep Hin) as [paragraph Hp].
    exists paragraph, rep. split; [exact Hp|]. split; [reflexivity|].
    rewrite export_sheet_rows, rows_from_length.
    apply process_paragraph_inv in Hp
      as [s0 [s1 [rest [g [dl [_ [_ [_ ->]]]]]]]].
    rewrite <- (length_map fst).
    change 18%nat with (List.length LIST_OF_INDUSTRIES).
    apply Nat.mul_le_mono_l.
    apply NoDup_incl_length; [apply LIST_OF_INDUSTRIES_NoDup|].
    intros x Hx. apply report_keys_spec. now left.
Qed.

Lemma main_generates_witness :
  exists wb,
    main (fun _ => true) (fun _ => example_document) "ism-report-2023.pdf"
    = Generated wb
    /\ wb_filename wb = "ism-report-2023.xlsx"
    /\ map fst (wb_sheets wb) = removelast LIST_OF_INDICATORS.
Proof.
  destruct (main (fun _ => true) (fun _ => example_document)
              "ism-report-2023.pdf") as [| e | wb] eqn:E;
    [vm_compute in E; discriminate | vm_compute in E; discriminate |].
  exists wb. split; [reflexivity|].
  destruct (main_generates (fun _ => true) (fun _ => example_document)
              "ism-report-2023.pdf" wb E) as [_ [Hf [Hs _]]].
  split; [exact Hf | exact Hs].
Defined.

(* ================================================================= *)
(** ** Further properties: the name of the output file *)

(** X16: for a file name that ends in ".pdf" and has no "pdf" before
    that, the name of the workbook is the same name with ".xlsx" in the
    place of ".pdf". *)
Theorem pdf_extension_replaced (stem : string) :
  contains "pdf" stem = false ->
  output_filename (stem ++ ".pdf") = stem ++ ".xlsx".
Proof. apply output_filename_plain. Qed.

Lemma pdf_extension_replaced_witness :
  output_filename ("reports/ism-2023" ++ ".pdf")
  = "reports/ism-2023" ++ ".xlsx".
Proof. apply (pdf_extension_replaced "reports/ism-2023"). reflexivity. Defined.

(** X17: a name without "pdf" in it (an upper-case extension, say) is
    returned unchanged, so the workbook of a run on such a file is
    created under the name of the input file itself. *)
Theorem output_filename_without_pdf (file_exists : string -> bool)
  (extract_text : string -> string) (filename : string) (wb : workbook) :
  contains "pdf" filename = false ->
  output_filename filename = filename
  /\ (main file_exists extract_text filename = Generated wb ->
      wb_filename wb = filename).
Proof.
  intros H.
  assert (E : output_filename filename = filename)
    by (now apply replace_absent).
  split; [exact E|]. unfold main.
  destruct (negb (file_exists filename)); [discriminate|].
  destruct (segment_report (extract_text filename)); [|discriminate].
  intros [= <-]. exact E.
Qed.

Lemma output_filename_without_pdf_witness :
  exists wb,
    main (fun _ => true) (fun _ => example_document) "ISM-REPORT.PDF"
    = Generated wb
    /\ output_filename "ISM-REPORT.PDF" = "ISM-REPORT.PDF"
    /\ wb_filename wb = "ISM-REPORT.PDF".
Proof.
  destruct (main (fun _ => true) (fun _ => example_document)
              "ISM-REPORT.PDF") as [| e | wb] eqn:E;
    [vm_compute in E; discriminate | vm_compute in E; discriminate |].
  exists wb. split; [reflexivity|].
  destruct (output_filename_without_pdf (fun _ => true)
              (fun _ => example_document) "ISM-REPORT.PDF" wb eq_refl)
    as [H1 H2].
  split; [exact H1 | exact (H2 E)].
Defined.
